(** * LogMiao: the handler chain, the dedup filter and the privacy helpers

    A shallow embedding of the parts of [github.com/shuakami/logmiao] that the
    specification talks about:

    - [handler.SmartFilterHandler] (filtering and time-windowed deduplication),
    - [logger.MultiHandler] (fan-out to several handlers),
    - [handler.ColorHandler] and [handler.colorize] (console presentation),
    - [middleware.getLogLevelForStatus] and the request middleware,
    - [utils.MaskEmail], [utils.MaskPhone], [utils.SanitizeUserInput].

    Go strings are byte strings: they are modelled by [string], whose
    characters are the 256 values of [ascii].  [time.Time] and
    [time.Duration] are integers counting nanoseconds.  A Go [map] is a
    reference: maps live in a store and handlers hold their address. *)

From Stdlib Require Import ZArith Ascii String List Bool Lia.
From stdpp Require Import base option gmap strings list fin_maps pretty.

Local Open Scope Z_scope.
Local Open Scope string_scope.

(** ** Byte strings (package [strings]) *)

Module Strings.

Fixpoint HasPrefix (s p : string) : bool :=
  match p, s with
  | EmptyString, _ => true
  | String _ _, EmptyString => false
  | String b p', String a s' => if Ascii.eqb a b then HasPrefix s' p' else false
  end.

(** [strings.Contains]: [sub] occurs somewhere in [s]. *)
Fixpoint Contains (s sub : string) : bool :=
  HasPrefix s sub ||
  match s with
  | EmptyString => false
  | String _ s' => Contains s' sub
  end.

Fixpoint Repeat (s : string) (n : nat) : string :=
  match n with
  | O => EmptyString
  | S n' => s ++ Repeat s n'
  end.

(** [s[:n]] and [s[n:]] for [n] within bounds.  Go panics otherwise: a use
    below is either guarded by a length test or models the panic. *)
Fixpoint take (n : nat) (s : string) : string :=
  match n, s with
  | S n', String a s' => String a (take n' s')
  | _, _ => EmptyString
  end.

Fixpoint drop (n : nat) (s : string) : string :=
  match n, s with
  | S n', String _ s' => drop n' s'
  | _, _ => s
  end.

Definition len (s : string) : Z := Z.of_nat (String.length s).

(** [strings.Split(s, sep)] for a one-byte separator. *)
Fixpoint SplitByte (sep : ascii) (s : string) : list string :=
  match s with
  | EmptyString => [EmptyString]
  | String a s' =>
      if Ascii.eqb a sep then EmptyString :: SplitByte sep s'
      else match SplitByte sep s' with
           | [] => [String a EmptyString]
           | x :: xs => String a x :: xs
           end
  end.

(** [strings.ReplaceAll(s, old, new)] for a one-byte [old]. *)
Fixpoint ReplaceByte (old : ascii) (new : string) (s : string) : string :=
  match s with
  | EmptyString => EmptyString
  | String a s' =>
      if Ascii.eqb a old then new ++ ReplaceByte old new s'
      else String a (ReplaceByte old new s')
  end.

Definition lowerByte (a : ascii) : ascii :=
  let n := nat_of_ascii a in
  if (65 <=? n)%nat && (n <=? 90)%nat then ascii_of_nat (n + 32) else a.

Definition isAsciiSpace (a : ascii) : bool :=
  let n := nat_of_ascii a in
  (n =? 32)%nat || ((9 <=? n)%nat && (n <=? 13)%nat).

Fixpoint mapBytes (f : ascii -> ascii) (s : string) : string :=
  match s with
  | EmptyString => EmptyString
  | String a s' => String (f a) (mapBytes f s')
  end.

Fixpoint trimLeft (s : string) : string :=
  match s with
  | EmptyString => EmptyString
  | String a s' => if isAsciiSpace a then trimLeft s' else s
  end.

Fixpoint trimRight (s : string) : string :=
  match s with
  | EmptyString => EmptyString
  | String a s' =>
      match trimRight s' with
      | EmptyString => if isAsciiSpace a then EmptyString else String a EmptyString
      | t => String a t
      end
  end.

Definition trimSpace (s : string) : string := trimRight (trimLeft s).

(** [strings.ReplaceAll(s, old, new)] for a non-empty [old]. *)
Fixpoint replaceAllFuel (fuel : nat) (s old new : string) : string :=
  match fuel, s with
  | Datatypes.S fuel', String a s' =>
      if HasPrefix s old
      then new ++ replaceAllFuel fuel' (drop (String.length old) s) old new
      else String a (replaceAllFuel fuel' s' old new)
  | _, _ => s
  end.

Definition ReplaceAll (s old new : string) : string :=
  replaceAllFuel (String.length s) s old new.

Fixpoint Join (l : list string) (sep : string) : string :=
  match l with
  | [] => EmptyString
  | [x] => x
  | x :: xs => x ++ sep ++ Join xs sep
  end.

(** The byte [c] occurs in [s] ([strings.IndexByte(s, c) >= 0]). *)
Fixpoint hasByte (c : ascii) (s : string) : bool :=
  match s with
  | EmptyString => false
  | String a s' => Ascii.eqb a c || hasByte c s'
  end.

End Strings.

(** The two functions of package [strings] whose result depends on the
    Unicode tables.  The code below is written against this interface;
    [ascii_strings] is the implementation the Go functions agree with on
    text that holds no byte above 127. *)
Class StringsPkg := {
  ToLower : string -> string;
  TrimSpace : string -> string
}.

Definition ascii_strings : StringsPkg := {|
  ToLower := Strings.mapBytes Strings.lowerByte;
  TrimSpace := Strings.trimSpace
|}.

(** ** Regular expressions (package [regexp])

    The syntax the repository's patterns use, matched the way Go specifies:
    the leftmost match, and among those the one a backtracking search finds
    first.  Matching is on bytes; [.] and negated classes consume any byte
    they accept, which gives the same spans as matching on runes because no
    pattern here names a byte above 127 outside the folded letters. *)

Module Regexp.

Inductive regex :=
| Eps
| Class (p : ascii -> bool)
| Seq (r1 r2 : regex)
| Or (r1 r2 : regex)
| Star (r : regex)
| WordBoundary
| BeginText.

Definition Plus (r : regex) : regex := Seq r (Star r).
Definition Opt (r : regex) : regex := Or r Eps.

Definition byte (c : ascii) : regex := Class (Ascii.eqb c).

Fixpoint Lit (s : string) : regex :=
  match s with
  | EmptyString => Eps
  | String a s' => Seq (byte a) (Lit s')
  end.

Fixpoint Alts (rs : list regex) : regex :=
  match rs with
  | [] => Class (fun _ => false)
  | [r] => r
  | r :: rs' => Or r (Alts rs')
  end.

Definition isDigit (a : ascii) : bool :=
  let n := nat_of_ascii a in (48 <=? n)%nat && (n <=? 57)%nat.

Definition isWord (a : ascii) : bool :=
  let n := nat_of_ascii a in
  isDigit a || ((65 <=? n)%nat && (n <=? 90)%nat)
  || ((97 <=? n)%nat && (n <=? 122)%nat) || (n =? 95)%nat.

(** [\s] is [[\t\n\f\r ]]. *)
Definition isSpace (a : ascii) : bool :=
  let n := nat_of_ascii a in
  (n =? 9)%nat || (n =? 10)%nat || (n =? 12)%nat || (n =? 13)%nat || (n =? 32)%nat.

Definition notNewline (a : ascii) : bool := negb (nat_of_ascii a =? 10)%nat.

Definition Dot : regex := Class notNewline.
Definition Digit : regex := Class isDigit.

Definition optWord (o : option ascii) : bool :=
  match o with Some a => isWord a | None => false end.

Definition head (s : string) : option ascii :=
  match s with String a _ => Some a | EmptyString => None end.

(** [matchK r prev s k]: match [r] at the front of [s], where [prev] is the
    byte before [s] in the whole text, and hand what is left to [k].  The
    result is the text left after the whole match. *)
Fixpoint matchK (r : regex) (prev : option ascii) (s : string)
    (k : option ascii -> string -> option string) : option string :=
  match r with
  | Eps => k prev s
  | Class p =>
      match s with
      | String a s' => if p a then k (Some a) s' else None
      | EmptyString => None
      end
  | Seq r1 r2 => matchK r1 prev s (fun prev' s' => matchK r2 prev' s' k)
  | Or r1 r2 =>
      match matchK r1 prev s k with
      | Some rest => Some rest
      | None => matchK r2 prev s k
      end
  | Star r' =>
      (fix loop (fuel : nat) (prev : option ascii) (s : string) : option string :=
         match fuel with
         | O => k prev s
         | S fuel' =>
             match matchK r' prev s
                     (fun prev' s' =>
                        if (String.length s' <? String.length s)%nat
                        then loop fuel' prev' s' else None) with
             | Some rest => Some rest
             | None => k prev s
             end
         end) (String.length s) prev s
  | WordBoundary =>
      if xorb (optWord prev) (optWord (head s)) then k prev s else None
  | BeginText =>
      match prev with None => k prev s | Some _ => None end
  end.

Definition matchHere (r : regex) (prev : option ascii) (s : string) : option string :=
  matchK r prev s (fun _ rest => Some rest).

(** The leftmost match in [s]: the text before it, the match, the text
    after it. *)
Fixpoint findFrom (r : regex) (prev : option ascii) (s : string)
    : option (string * string * string) :=
  match matchHere r prev s with
  | Some rest =>
      Some (EmptyString,
            Strings.take (String.length s - String.length rest) s, rest)
  | None =>
      match s with
      | EmptyString => None
      | String a s' =>
          match findFrom r (Some a) s' with
          | Some (pre, m, post) => Some (String a pre, m, post)
          | None => None
          end
      end
  end.

Definition MatchString (r : regex) (s : string) : bool :=
  match findFrom r None s with Some _ => true | None => false end.

End Regexp.

Module RegexpReplace.
Import Regexp.

Fixpoint lastByte (dflt : option ascii) (s : string) : option ascii :=
  match s with
  | EmptyString => dflt
  | String a s' => lastByte (Some a) s'
  end.

(** [Regexp.ReplaceAllStringFunc]: every match, found left to right and
    never overlapping, is replaced by [repl] of the matched text.  An empty
    match that directly follows a match is not replaced, and the search
    then moves one position on ([afterMatch] is Go's test
    [a[1] > lastMatchEnd || a[0] == 0] failing).  [fuel] bounds the number
    of matches. *)
Fixpoint replaceLoop (fuel : nat) (r : regex) (repl : string -> string)
    (afterMatch : bool) (prev : option ascii) (s : string) : string :=
  match fuel with
  | O => s
  | S fuel' =>
      match findFrom r prev s with
      | None => s
      | Some (pre, EmptyString, post) =>
          let here :=
            match pre with
            | EmptyString => if afterMatch then EmptyString else repl EmptyString
            | _ => repl EmptyString
            end in
          match post with
          | EmptyString => pre ++ here
          | String a post' =>
              pre ++ here ++ String a (replaceLoop fuel' r repl false (Some a) post')
          end
      | Some (pre, m, post) =>
          pre ++ repl m ++ replaceLoop fuel' r repl true (lastByte prev (pre ++ m)) post
      end
  end.

Definition ReplaceAllStringFunc (r : regex) (src : string) (repl : string -> string)
    : string :=
  replaceLoop (S (String.length src)) r repl false None src.

End RegexpReplace.

(** ** Package [color] (github.com/fatih/color)

    The library is not part of the repository: what [color.New(attrs...)]
    prints is an interface, with the usual SGR escape sequences as the
    implementation used to evaluate examples. *)

Module Color.

Inductive Attribute :=
| Bold | Underline
| FgRed | FgGreen | FgYellow | FgMagenta | FgCyan | FgWhite
| FgHiRed | FgHiGreen | FgHiYellow | FgHiBlue | FgHiMagenta | FgHiCyan | FgHiWhite.

Definition code (a : Attribute) : string :=
  match a with
  | Bold => "1" | Underline => "4"
  | FgRed => "31" | FgGreen => "32" | FgYellow => "33" | FgMagenta => "35"
  | FgCyan => "36" | FgWhite => "37"
  | FgHiRed => "91" | FgHiGreen => "92" | FgHiYellow => "93" | FgHiBlue => "94"
  | FgHiMagenta => "95" | FgHiCyan => "96" | FgHiWhite => "97"
  end.

Class Painter := { Sprint : list Attribute -> string -> string }.

Fixpoint sequence (attrs : list Attribute) : string :=
  match attrs with
  | [] => EmptyString
  | [a] => code a
  | a :: rest => code a ++ ";" ++ sequence rest
  end.

Definition esc : string := String (ascii_of_nat 27) "[".

(** Colours switched on: [ESC[<codes>m text ESC[0m]. *)
Definition sgr : Painter :=
  {| Sprint := fun attrs s => esc ++ sequence attrs ++ "m" ++ s ++ esc ++ "0m" |}.

(** [color.NoColor = true] (output is not a terminal): text is left as is. *)
Definition plain : Painter := {| Sprint := fun _ s => s |}.

End Color.

(** ** Keyword and pattern highlighting ([handler.colorize]) *)

Module Highlight.
Import Regexp RegexpReplace Color.

(** [keywordColors], in the order of the source.  Go ranges over the map in
    an unspecified order: [colorize] below takes the order as an argument. *)
Definition keywordColors : list (string * Attribute) :=
  [ ("success", FgHiGreen); ("successfully", FgHiGreen); ("loaded", FgHiGreen);
    ("completed", FgHiGreen); ("established", FgHiGreen); ("initialized", FgHiGreen);
    ("enabled", FgHiGreen); ("ok", FgHiGreen); ("finished", FgHiGreen);
    ("resolved", FgHiGreen); ("found", FgHiGreen); ("true", FgHiGreen);
    ("connected", FgHiGreen);
    ("error", FgHiRed); ("failed", FgHiRed); ("fail", FgHiRed); ("invalid", FgHiRed);
    ("unable", FgHiRed); ("cannot", FgHiRed); ("denied", FgHiRed); ("rejected", FgHiRed);
    ("timeout", FgHiRed); ("panic", FgHiRed); ("false", FgHiRed);
    ("disconnected", FgHiRed); ("crashed", FgHiRed);
    ("warn", FgHiYellow); ("warning", FgHiYellow); ("deprecated", FgHiYellow);
    ("fallback", FgHiYellow); ("skipping", FgHiYellow); ("missing", FgHiYellow);
    ("empty", FgHiYellow); ("ignored", FgHiYellow); ("retrying", FgHiYellow);
    ("info", FgHiBlue); ("request", FgHiBlue); ("response", FgHiBlue);
    ("starting", FgHiBlue); ("stopping", FgHiBlue); ("connecting", FgHiBlue);
    ("sending", FgHiBlue); ("receiving", FgHiBlue); ("processing", FgHiBlue);
    ("get", FgHiCyan); ("post", FgHiCyan); ("put", FgHiCyan); ("delete", FgHiCyan);
    ("patch", FgHiCyan);
    ("debug", FgHiMagenta); ("parsing", FgHiMagenta); ("generating", FgHiMagenta);
    ("writing", FgHiMagenta); ("reading", FgHiMagenta); ("database", FgHiMagenta);
    ("cache", FgHiMagenta); ("router", FgHiMagenta); ("server", FgHiMagenta);
    ("client", FgHiMagenta); ("user", FgHiMagenta); ("session", FgHiMagenta) ].

Definition upperByte (a : ascii) : ascii :=
  let n := nat_of_ascii a in
  if (97 <=? n)%nat && (n <=? 122)%nat then ascii_of_nat (n - 32) else a.

(** One letter under [(?i)]: either case, and the two letters Unicode
    simple folding adds to ASCII ones, U+212A for [k] and U+017F for [s],
    in their UTF-8 encoding. *)
Definition foldByte (a : ascii) : regex :=
  let either := Class (fun b => Ascii.eqb b a || Ascii.eqb b (upperByte a)) in
  if Ascii.eqb a "k" then
    Or either (Lit (String (ascii_of_nat 226) (String (ascii_of_nat 132)
                      (String (ascii_of_nat 170) EmptyString))))
  else if Ascii.eqb a "s" then
    Or either (Lit (String (ascii_of_nat 197) (String (ascii_of_nat 191) EmptyString)))
  else either.

Fixpoint LitFold (s : string) : regex :=
  match s with
  | EmptyString => Eps
  | String a s' => Seq (foldByte a) (LitFold s')
  end.

(** [(?i)\b<keyword>\b] *)
Definition keywordRegex (keyword : string) : regex :=
  Seq WordBoundary (Seq (LitFold keyword) WordBoundary).

(** [\b\d+(\.\d+)?(ms|s|MB|KB|GB)?\b] *)
Definition numericRegex : regex :=
  Seq WordBoundary
    (Seq (Plus Digit)
       (Seq (Opt (Seq (byte ".") (Plus Digit)))
          (Seq (Opt (Alts [Lit "ms"; Lit "s"; Lit "MB"; Lit "KB"; Lit "GB"]))
             WordBoundary))).

(** [https?://[^\s]+] *)
Definition urlRegex : regex :=
  Seq (Lit "http") (Seq (Opt (byte "s")) (Seq (Lit "://")
    (Plus (Class (fun a => negb (isSpace a)))))).

(** [\d{1,3}]: greedy, at most three digits. *)
Definition digits13 : regex := Seq Digit (Seq (Opt Digit) (Opt Digit)).

(** [\b\d{1,3}\.\d{1,3}\.\d{1,3}\.\d{1,3}\b] *)
Definition ipRegex : regex :=
  Seq WordBoundary
    (Seq digits13 (Seq (byte ".") (Seq digits13 (Seq (byte ".")
       (Seq digits13 (Seq (byte ".") (Seq digits13 WordBoundary))))))).

Section Colorize.
Context {painter : Painter}.

Definition highlightKeyword (msg : string) (kc : string * Attribute) : string :=
  ReplaceAllStringFunc (keywordRegex (fst kc)) msg (Sprint [snd kc]).

Definition colorize (order : list (string * Attribute))
    (msg : string) (enableHighlight : bool) : string :=
  if negb enableHighlight then msg
  else
    let msg := fold_left highlightKeyword order msg in
    let msg := ReplaceAllStringFunc numericRegex msg (Sprint [FgHiWhite; Bold]) in
    let msg := ReplaceAllStringFunc urlRegex msg (Sprint [FgCyan; Underline]) in
    let msg := ReplaceAllStringFunc ipRegex msg (Sprint [FgYellow]) in
    msg.
End Colorize.

End Highlight.

(** ** Package [log/slog]: levels, attributes, records, the handler interface *)

Module Slog.

(** [slog.Level] is an [int]. *)
Definition Level := Z.
Definition LevelDebug : Level := -4.
Definition LevelInfo : Level := 0.
Definition LevelWarn : Level := 4.
Definition LevelError : Level := 8.

(** Nanoseconds; [Sub] saturates at the bounds of [int64] as
    [time.Time.Sub] does. *)
Definition Time := Z.
Definition Duration := Z.
Definition maxDuration : Duration := 2 ^ 63 - 1.
Definition minDuration : Duration := - 2 ^ 63.
Definition Millisecond : Duration := 1000000.
Definition Second : Duration := 1000 * Millisecond.
Definition Minute : Duration := 60 * Second.

Definition Sub (t u : Time) : Duration :=
  Z.max minDuration (Z.min maxDuration (t - u)).

(** [slog.Value]: the kinds whose text the handlers look at, and
    [OtherValue] for the remaining kinds (duration, time, float, any),
    which carries what [Value.String] returns for it. *)
#[warnings="-register-all"]
Inductive Value :=
| StringValue (s : string)
| Int64Value (i : Z)
| BoolValue (b : bool)
| GroupValue (g : list (string * Value))
| OtherValue (text : string).

Definition Attr := (string * Value)%type.

Definition joinSpace (l : list string) : string :=
  match l with
  | [] => EmptyString
  | x :: xs => fold_left (fun acc y => acc ++ " " ++ y) xs x
  end.

(** [Value.String]; a group prints as [fmt.Sprint] of its attributes,
    [[k1=v1 k2=v2]]. *)
Fixpoint Value_String (v : Value) : string :=
  match v with
  | StringValue s => s
  | Int64Value i => pretty i
  | BoolValue b => if b then "true" else "false"
  | GroupValue g =>
      "[" ++ joinSpace (map (fun kv => fst kv ++ "=" ++ Value_String (snd kv)) g) ++ "]"
  | OtherValue text => text
  end.

Record Record_ := {
  Time_ : Time;
  Message : string;
  Level_ : Level;
  Attrs : list Attr
}.

(** [Record.Clone]: a copy that shares no attribute storage with the
    original; records are values here, so the copy is the record. *)
Definition Clone (r : Record_) : Record_ := r.

Definition error := string.

(** [slog.Handler].  [S] is the state the handler's methods read and
    write (sinks, allocations); [Handle] is given the instant [time.Now]
    returns during the call. *)
Class Handler (H S : Type) := {
  Enabled : H -> Level -> bool;
  Handle : H -> Time -> Record_ -> S -> S * option error;
  WithAttrs : H -> list Attr -> S -> H * S;
  WithGroup : H -> string -> S -> H * S
}.

End Slog.

(** ** [handler.SmartFilterHandler] *)

Module SmartFilter.
Import Regexp Slog.

Definition loc := nat.

(** [sync.RWMutex], as far as this code uses it: held by a writer or free. *)
Inductive RWMutex := Unlocked | Locked.

(** What the handlers' references point to: the [map[string]time.Time]
    objects, and the mutex variables (each handler struct holds its mutex
    inline, so a struct allocation creates a mutex variable). *)
Record Store := {
  maps : gmap loc (gmap string Time);
  mutexes : gmap loc RWMutex;
  next : loc
}.

Definition emptyStore : Store := {| maps := ∅; mutexes := ∅; next := O |}.

Definition tracker (st : Store) (l : loc) : gmap string Time :=
  default ∅ (maps st !! l).

Definition setTracker (st : Store) (l : loc) (m : gmap string Time) : Store :=
  {| maps := <[l := m]> (maps st); mutexes := mutexes st; next := next st |}.

Definition mutex (st : Store) (l : loc) : RWMutex :=
  default Unlocked (mutexes st !! l).

Record SmartFilterHandler (H : Type) := {
  handler : H;
  ignoreGinDebug : bool;
  ignoreHealthCheck : bool;
  minLevel : Level;
  ginDebugRegex : regex;
  cookiePartitionRegex : regex;
  healthCheckRegex : regex;
  chromedpInternalRegex : regex;
  (** a Go map is a reference to the map object *)
  errorTracker : loc;
  (** the address of this struct's [errorMutex] field *)
  errorMutex : loc;
  errorWindow : Duration
}.
Arguments handler {H}. Arguments ignoreGinDebug {H}. Arguments ignoreHealthCheck {H}.
Arguments minLevel {H}. Arguments ginDebugRegex {H}. Arguments cookiePartitionRegex {H}.
Arguments healthCheckRegex {H}. Arguments chromedpInternalRegex {H}.
Arguments errorTracker {H}. Arguments errorMutex {H}. Arguments errorWindow {H}.

Record FilterConfig := {
  IgnoreGinDebug : bool;
  IgnoreHealthCheck : bool;
  MinLevel : Level
}.

(** [^\[GIN-debug\]|\[GIN\]] *)
Definition ginDebugPattern : regex :=
  Or (Seq BeginText (Lit "[GIN-debug]")) (Lit "[GIN]").
(** [could not unmarshal event.*CookiePartitionKey] *)
Definition cookiePartitionPattern : regex :=
  Seq (Lit "could not unmarshal event") (Seq (Star Dot) (Lit "CookiePartitionKey")).
(** [/health|/ping|/status|/metrics] *)
Definition healthCheckPattern : regex :=
  Alts [Lit "/health"; Lit "/ping"; Lit "/status"; Lit "/metrics"].
(** [chromedp: could not retrieve|context deadline exceeded.*chromedp] *)
Definition chromedpInternalPattern : regex :=
  Or (Lit "chromedp: could not retrieve")
     (Seq (Lit "context deadline exceeded") (Seq (Star Dot) (Lit "chromedp"))).

Definition contextErrors : list string :=
  [ "context canceled"; "context deadline exceeded";
    "connection reset by peer"; "broken pipe" ].

Section Methods.
Context {H S : Type} `{Handler H S} {strs : StringsPkg}.

(** [make(map[string]time.Time)] and the new struct's mutex are
    allocated; the window is five minutes. *)
Definition NewSmartFilterHandler (handler : H) (config : FilterConfig) (st : Store)
    : SmartFilterHandler H * Store :=
  let lmap := next st in
  let lmu := Datatypes.S (next st) in
  ({| handler := handler;
      ignoreGinDebug := IgnoreGinDebug config;
      ignoreHealthCheck := IgnoreHealthCheck config;
      minLevel := MinLevel config;
      ginDebugRegex := ginDebugPattern;
      cookiePartitionRegex := cookiePartitionPattern;
      healthCheckRegex := healthCheckPattern;
      chromedpInternalRegex := chromedpInternalPattern;
      errorTracker := lmap;
      errorMutex := lmu;
      errorWindow := 5 * Minute |},
   {| maps := <[lmap := ∅]> (maps st);
      mutexes := <[lmu := Unlocked]> (mutexes st);
      next := Datatypes.S (Datatypes.S (next st)) |}).

Definition Enabled_ (h : SmartFilterHandler H) (level : Level) : bool :=
  (minLevel h <=? level)%Z && Enabled (handler h) level.

Definition shouldIgnoreHealthCheck (h : SmartFilterHandler H) (r : Record_) : bool :=
  if MatchString (healthCheckRegex h) (Message r) then true
  else
    existsb (fun a : Attr =>
               (String.eqb (fst a) "path" || String.eqb (fst a) "url")
               && MatchString (healthCheckRegex h) (Value_String (snd a)))
            (Attrs r).

(** Runs between [errorMutex.Lock] and the deferred [Unlock]; in a
    sequential run the mutex is free before and after.  Ranging over the
    map while deleting removes exactly the entries that satisfy the
    test. *)
Definition shouldFilterDuplicateError (h : SmartFilterHandler H) (now : Time)
    (msg : string) (st : Store) : bool * Store :=
  let purged :=
    filter (fun kv : string * Time => ¬ (Sub now (snd kv) > errorWindow h)%Z)
           (tracker st (errorTracker h)) in
  match purged !! msg with
  | Some lastTime =>
      if (Sub now lastTime <? errorWindow h)%Z
      then (true, setTracker st (errorTracker h) purged)
      else (false, setTracker st (errorTracker h) (<[msg := now]> purged))
  | None => (false, setTracker st (errorTracker h) (<[msg := now]> purged))
  end.

(** The classification of a message as a context or connection error. *)
Definition isContextError (msg : string) : bool :=
  existsb (Strings.Contains (ToLower msg)) contextErrors.

Definition isDuplicateContextError (h : SmartFilterHandler H) (now : Time)
    (msg : string) (st : Store) : bool * Store :=
  if isContextError msg then shouldFilterDuplicateError h now msg st
  else (false, st).

Definition Handle_ (h : SmartFilterHandler H) (now : Time) (r : Record_)
    (st : S * Store) : (S * Store) * option error :=
  if (Level_ r <? minLevel h)%Z then (st, None)
  else
    let msg := Message r in
    if ignoreGinDebug h && MatchString (ginDebugRegex h) msg then (st, None)
    else if MatchString (cookiePartitionRegex h) msg then (st, None)
    else if MatchString (chromedpInternalRegex h) msg then (st, None)
    else if ignoreHealthCheck h && shouldIgnoreHealthCheck h r then (st, None)
    else
      let '(dup, fs) := isDuplicateContextError h now msg (snd st) in
      if dup then ((fst st, fs), None)
      else if String.eqb (TrimSpace msg) EmptyString then ((fst st, fs), None)
      else
        let '(s', err) := Handle (handler h) now r (fst st) in
        ((s', fs), err).

(** The tests of [Handle] that come before the duplicate rule: the level
    gate, the fixed patterns and the health-check paths. *)
Definition stoppedEarly (h : SmartFilterHandler H) (r : Record_) : bool :=
  (Level_ r <? minLevel h)%Z
  || (ignoreGinDebug h && MatchString (ginDebugRegex h) (Message r))
  || MatchString (cookiePartitionRegex h) (Message r)
  || MatchString (chromedpInternalRegex h) (Message r)
  || (ignoreHealthCheck h && shouldIgnoreHealthCheck h r).

(** Some test of [Handle] rejects the record. *)
Definition rejected (h : SmartFilterHandler H) (now : Time) (r : Record_) (st : Store)
    : bool :=
  stoppedEarly h r
  || fst (isDuplicateContextError h now (Message r) st)
  || String.eqb (TrimSpace (Message r)) EmptyString.

(** A sequence of calls of the duplicate rule, each with its instant and
    its message: the decisions, in order, and the store at the end. *)
Fixpoint runDedup (h : SmartFilterHandler H) (calls : list (Time * string)) (st : Store)
    : list bool * Store :=
  match calls with
  | [] => ([], st)
  | (now, msg) :: rest =>
      let '(dup, st1) := isDuplicateContextError h now msg st in
      let '(dups, st2) := runDedup h rest st1 in
      (dup :: dups, st2)
  end.

(** The struct literal of [WithAttrs] and [WithGroup]: [errorTracker]
    copies the map reference; [errorMutex: h.errorMutex] copies the mutex
    value into the mutex variable of the new struct. *)
Definition derive (h : SmartFilterHandler H) (inner : H) (st : Store)
    : SmartFilterHandler H * Store :=
  let lmu := next st in
  ({| handler := inner;
      ignoreGinDebug := ignoreGinDebug h;
      ignoreHealthCheck := ignoreHealthCheck h;
      minLevel := minLevel h;
      ginDebugRegex := ginDebugRegex h;
      cookiePartitionRegex := cookiePartitionRegex h;
      healthCheckRegex := healthCheckRegex h;
      chromedpInternalRegex := chromedpInternalRegex h;
      errorTracker := errorTracker h;
      errorMutex := lmu;
      errorWindow := errorWindow h |},
   {| maps := maps st;
      mutexes := <[lmu := mutex st (errorMutex h)]> (mutexes st);
      next := Datatypes.S (next st) |}).

Definition WithAttrs_ (h : SmartFilterHandler H) (attrs : list Attr) (st : S * Store)
    : SmartFilterHandler H * (S * Store) :=
  let '(inner, s') := WithAttrs (handler h) attrs (fst st) in
  let '(h', fs) := derive h inner (snd st) in
  (h', (s', fs)).

Definition WithGroup_ (h : SmartFilterHandler H) (name : string) (st : S * Store)
    : SmartFilterHandler H * (S * Store) :=
  let '(inner, s') := WithGroup (handler h) name (fst st) in
  let '(h', fs) := derive h inner (snd st) in
  (h', (s', fs)).

#[export] Instance SmartFilterHandler_Handler
    : Handler (SmartFilterHandler H) (S * Store) :=
  {| Enabled := Enabled_; Handle := Handle_;
     WithAttrs := WithAttrs_; WithGroup := WithGroup_ |}.

End Methods.

(** *** The mutex protocol of [shouldFilterDuplicateError]

    [Lock] succeeds on a free mutex and otherwise makes the caller wait
    ([None]); a call is inside its critical section between [enter] and
    [leave]. *)

Definition setMutex (st : Store) (l : loc) (m : RWMutex) : Store :=
  {| maps := maps st; mutexes := <[l := m]> (mutexes st); next := next st |}.

Definition Lock (st : Store) (l : loc) : option Store :=
  match mutex st l with
  | Unlocked => Some (setMutex st l Locked)
  | Locked => None
  end.

Definition Unlock (st : Store) (l : loc) : Store := setMutex st l Unlocked.

Definition enter {H : Type} (h : SmartFilterHandler H) (st : Store) : option Store :=
  Lock st (errorMutex h).

Definition leave {H : Type} (h : SmartFilterHandler H) (st : Store) : Store :=
  Unlock st (errorMutex h).

(** Two calls, through [h1] and through [h2], can be inside their critical
    sections at the same time while working on one map. *)
Definition canOverlap {H : Type} (h1 h2 : SmartFilterHandler H) (st : Store) : Prop :=
  errorTracker h1 = errorTracker h2 /\
  exists st1 st2, enter h1 st = Some st1 /\ enter h2 st1 = Some st2.

End SmartFilter.

(** ** [logger.MultiHandler] *)

Module Multi.
Import Slog.

(** The state of the member handlers, and the record of which member's
    [Handle] was called with which record, in call order. *)
Record MState (S : Type) := {
  inner : S;
  calls : list (nat * Record_)
}.
Arguments inner {S}. Arguments calls {S}.

(** The handler of a logger as [createLogger] builds it:
    [handlers[0]] when there is one handler, [NewMultiHandler(handlers...)]
    otherwise. *)
Inductive Root (M : Type) :=
| Single (m : M)
| Fanout (handlers : list M).
Arguments Single {M}. Arguments Fanout {M}.

(** What [slog.Default()] returns: Go's initial logger, which prints
    through package [log], or the logger a call of [slog.SetDefault]
    installed ([Init] and [InitWithDefaults] install the logger of
    [createLogger]). *)
Inductive DefaultLogger (M : Type) :=
| Initial
| Installed (root : Root M).
Arguments Initial {M}. Arguments Installed {M}.

Section Methods.
Context {M S : Type} `{Handler M S}.

Definition Enabled_ (handlers : list M) (level : Level) : bool :=
  existsb (fun handler => Enabled handler level) handlers.

(** The record [slog.Default().Error("Handler error", "error", err)]
    builds. *)
Definition handlerErrorRecord (now : Time) (err : error) : Record_ :=
  {| Time_ := now; Message := "Handler error"; Level_ := LevelError;
     Attrs := [("error", OtherValue err)] |}.

(** The loop of [MultiHandler.Handle] from member number [i] on;
    [report] is the call [slog.Default().Error(...)], which may not
    return. *)
Fixpoint dispatch (report : error -> MState S -> option (MState S))
    (i : nat) (handlers : list M) (now : Time) (r : Record_) (st : MState S)
    : option (MState S) :=
  match handlers with
  | [] => Some st
  | handler :: rest =>
      if Enabled handler (Level_ r) then
        let recordClone := Clone r in
        let '(s', err) := Handle handler now recordClone (inner st) in
        let st1 := {| inner := s'; calls := calls st ++ [(i, recordClone)] |} in
        match err with
        | Some e =>
            match report e st1 with
            | Some st2 => dispatch report (Datatypes.S i) rest now r st2
            | None => None
            end
        | None => dispatch report (Datatypes.S i) rest now r st1
        end
      else dispatch report (Datatypes.S i) rest now r st
  end.

(** [Logger.Error]: the record goes to the logger's handler when that
    handler is enabled for the error level; the handler's error is
    dropped.  [handleFanout] is [MultiHandler.Handle]. *)
Definition loggerError
    (handleFanout : list M -> Time -> Record_ -> MState S ->
                    option (MState S * option error))
    (dflt : DefaultLogger M) (now : Time) (err : error) (st : MState S)
    : option (MState S) :=
  match dflt with
  | Initial => Some st
  | Installed (Single m) =>
      if Enabled m LevelError then
        Some {| inner := fst (Handle m now (handlerErrorRecord now err) (inner st));
                calls := calls st |}
      else Some st
  | Installed (Fanout handlers) =>
      if Enabled_ handlers LevelError then
        match handleFanout handlers now (handlerErrorRecord now err) st with
        | Some (st', _) => Some st'
        | None => None
        end
      else Some st
  end.

(** [MultiHandler.Handle].  [fuel] bounds the depth of the calls of
    [Handle] that are active at once; [None] means the bound was hit. *)
Fixpoint Handle_ (fuel : nat) (dflt : DefaultLogger M) (handlers : list M)
    (now : Time) (r : Record_) (st : MState S)
    : option (MState S * option error) :=
  match fuel with
  | O => None
  | Datatypes.S fuel' =>
      match dispatch (loggerError (Handle_ fuel' dflt) dflt now) O handlers now r st with
      | Some st' => Some (st', None)
      | None => None
      end
  end.

(** The calls the loop makes when every report returns: member [i + j]
    gets a clone of [r] when the [j]-th handler of the list is enabled for
    the level of [r]. *)
Fixpoint deliveries (i : nat) (handlers : list M) (r : Record_) : list (nat * Record_) :=
  match handlers with
  | [] => []
  | handler :: rest =>
      ((if Enabled handler (Level_ r) then [(i, Clone r)] else [])
       ++ deliveries (Datatypes.S i) rest r)%list
  end.

Definition WithAttrs_ (handlers : list M) (attrs : list Attr) (s : S) : list M * S :=
  fold_left (fun acc handler =>
               let '(h', s') := WithAttrs handler attrs (snd acc) in
               ((fst acc ++ [h'])%list, s'))
            handlers ([], s).

Definition WithGroup_ (handlers : list M) (name : string) (s : S) : list M * S :=
  fold_left (fun acc handler =>
               let '(h', s') := WithGroup handler name (snd acc) in
               ((fst acc ++ [h'])%list, s'))
            handlers ([], s).

End Methods.

End Multi.

(** ** Package [config] *)

Module Config.

Record RotationConfig := {
  MaxSize : Z; MaxBackups : Z; MaxAge : Z; Compress : bool
}.
Record FileConfig := {
  File_Enabled : bool; File_Path : string; File_Format : string;
  Rotation : RotationConfig
}.
Record ConsoleConfig := { Console_Enabled : bool; Console_Format : string }.
Record OutputConfig := { Console : ConsoleConfig; File : FileConfig }.
Record PrivacyConfig := {
  EnableEmailMask : bool;
  EnablePhoneMask : bool;
  EnableInputSanitize : bool
}.
Record FeaturesConfig := {
  SmartFilter : bool;
  KeywordHighlight : bool;
  AutoSampling : bool;
  PerformanceTracking : bool;
  Privacy : PrivacyConfig
}.
Record MiddlewareConfig := { LogBody : bool; LogHeaders : bool; MaxBodySize : Z }.
Record AuthConfig := { Username : string; Password : string }.
Record ViewerConfig := { Viewer_Enabled : bool; Port : Z; Auth : AuthConfig }.
Record LoggerConfig := {
  Level : string;
  Format : string;
  Output : OutputConfig;
  Features : FeaturesConfig;
  Middleware : MiddlewareConfig;
  Viewer : ViewerConfig
}.
Record Config := { Logger : LoggerConfig }.

(** The configuration [LoadConfig] yields when no file overrides a key:
    the values of [setDefaults]. *)
Definition defaults : Config :=
  {| Logger :=
       {| Level := "info";
          Format := "color";
          Output :=
            {| Console := {| Console_Enabled := true; Console_Format := "color" |};
               File := {| File_Enabled := true; File_Path := "logs/app.log";
                          File_Format := "json";
                          Rotation := {| MaxSize := 10; MaxBackups := 5;
                                         MaxAge := 30; Compress := true |} |} |};
          Features :=
            {| SmartFilter := true; KeywordHighlight := true;
               AutoSampling := false; PerformanceTracking := true;
               Privacy := {| EnableEmailMask := false;
                             EnablePhoneMask := false;
                             EnableInputSanitize := false |} |};
          Middleware := {| LogBody := true; LogHeaders := false; MaxBodySize := 2048 |};
          Viewer := {| Viewer_Enabled := false; Port := 8081;
                       Auth := {| Username := "admin"; Password := "secret" |} |} |} |}.

Definition privacy (c : Config) : PrivacyConfig := Privacy (Features (Logger c)).

End Config.

(** ** Package [utils]: the privacy helpers

    [GlobalConfig] is the package variable [config.GlobalConfig], a pointer
    that is [nil] until a configuration has been loaded. *)

Module Utils.
Import Strings Config.

Definition maskString (s : string) : string :=
  let n := String.length s in
  if (n <=? 2)%nat then Repeat "*" n
  else if (n <=? 4)%nat then take 1 s ++ Repeat "*" (n - 1)
  else take 2 s ++ Repeat "*" (n - 4) ++ drop (n - 2) s.

(** [config.GlobalConfig != nil && !toggle(config.GlobalConfig)] *)
Definition switchedOff (GlobalConfig : option Config) (toggle : PrivacyConfig -> bool)
    : bool :=
  match GlobalConfig with
  | Some cfg => negb (toggle (privacy cfg))
  | None => false
  end.

Definition MaskEmail (GlobalConfig : option Config) (email : string) : string :=
  if String.eqb email EmptyString then EmptyString
  else if switchedOff GlobalConfig EnableEmailMask then email
  else
    match SplitByte "@" email with
    | [username; domain] =>
        let n := String.length username in
        if (n <=? 2)%nat then username ++ "@" ++ domain
        else if (n <=? 4)%nat then take 2 username ++ "**@" ++ domain
        else take 2 username ++ Repeat "*" (n - 2) ++ "@" ++ domain
    | _ => maskString email
    end.

Definition MaskPhone (GlobalConfig : option Config) (phone : string) : string :=
  let n := String.length phone in
  if String.eqb phone EmptyString then EmptyString
  else if switchedOff GlobalConfig EnablePhoneMask then phone
  else if (n <? 7)%nat then
    if (n <=? 2)%nat then Repeat "*" n
    else if (n <=? 4)%nat then take 2 phone ++ Repeat "*" (n - 2)
    else take 2 phone ++ "***"
  else if (n =? 11)%nat && negb (HasPrefix phone "+") then
    take 3 phone ++ "****" ++ drop 7 phone
  else if HasPrefix phone "+" && (10 <? n)%nat && (10 <=? n)%nat then
    take 3 phone ++ "****" ++ drop (n - 4) phone
  else if (n <=? 4)%nat then maskString phone
  else take 2 phone ++ Repeat "*" (n - 4) ++ drop (n - 2) phone.

Definition backslash (c : string) : string := String (ascii_of_nat 92) c.

Definition SanitizeUserInput (GlobalConfig : option Config) (input : string) : string :=
  if switchedOff GlobalConfig EnableInputSanitize then input
  else
    let input := ReplaceByte (ascii_of_nat 10) (backslash "n") input in
    let input := ReplaceByte (ascii_of_nat 13) (backslash "r") input in
    let input := ReplaceByte (ascii_of_nat 9) (backslash "t") input in
    if (1000 <? String.length input)%nat
    then take 1000 input ++ "...(truncated)"
    else input.

(** [TruncateString].  [strings.Repeat] panics on a negative count
    ([None]); the slice [s[:maxLen-3]] is within bounds whenever it is
    reached. *)
Definition TruncateString (s : string) (maxLen : Z) : option string :=
  if (len s <=? maxLen)%Z then Some s
  else if (maxLen <=? 3)%Z then
    if (maxLen <? 0)%Z then None else Some (Repeat "." (Z.to_nat maxLen))
  else Some (take (Z.to_nat (maxLen - 3)) s ++ "...").

Definition healthPaths : list string :=
  [ "/health"; "/ping"; "/status"; "/metrics"; "/ready"; "/live"; "/heartbeat" ].

Definition IsHealthCheckPath {strs : StringsPkg} (path : string) : bool :=
  let pathLower := ToLower path in
  existsb (fun healthPath => HasPrefix pathLower healthPath) healthPaths.

(** [strings.LastIndex(s, sep)] for a one-byte separator. *)
Fixpoint LastIndexByte (sep : ascii) (s : string) : option nat :=
  match s with
  | EmptyString => None
  | String a s' =>
      match LastIndexByte sep s' with
      | Some i => Some (Datatypes.S i)
      | None => if Ascii.eqb a sep then Some O else None
      end
  end.

Definition ExtractDomainFromURL (url : string) : string :=
  let url :=
    if HasPrefix url "https://" then drop 8 url
    else if HasPrefix url "http://" then drop 7 url
    else url in
  match SplitByte "/" url with
  | domain :: _ =>
      match LastIndexByte ":" domain with
      | Some colonIndex => take colonIndex domain
      | None => domain
      end
  | [] => url
  end.

Definition SliceContains (slice : list string) (item : string) : bool :=
  existsb (fun s => String.eqb s item) slice.

End Utils.

(** ** Package [logger]: the level names of the configuration *)

Module Logger.
Import Slog.

Definition parseLogLevel (levelStr : string) : Level :=
  if String.eqb levelStr "debug" then LevelDebug
  else if String.eqb levelStr "info" then LevelInfo
  else if String.eqb levelStr "warn" || String.eqb levelStr "warning" then LevelWarn
  else if String.eqb levelStr "error" then LevelError
  else LevelInfo.

(** Where a handler writes: standard error, or the rotating file writer
    with its settings. *)
Inductive Writer :=
| Stderr
| RotatingFile (Filename : string) (MaxSize MaxBackups MaxAge : Z) (Compress : bool).

(** The handlers [createLogger] puts together, by constructor call. *)
Inductive HandlerSpec :=
| ColorOn (w : Writer) (level : Level) (enableHighlight compactMode : bool)
| JSONOn (w : Writer) (level : Level)
| TextOn (w : Writer) (level : Level)
| SmartFilterOver (inner : HandlerSpec) (config : SmartFilter.FilterConfig).

Section CreateLogger.
(** [filepath.Dir] and [os.MkdirAll(dir, 0755)], which returns an error or
    nil. *)
Variable Dir : string -> string.
Variable MkdirAll : string -> option error.

Definition createLogger (cfg : Config.Config) : Multi.Root HandlerSpec + error :=
  let lc := Config.Logger cfg in
  let level := parseLogLevel (Config.Level lc) in
  let console := Config.Console (Config.Output lc) in
  let file := Config.File (Config.Output lc) in
  let handlers : list HandlerSpec :=
    if Config.Console_Enabled console then
      let consoleHandler :=
        if String.eqb (Config.Console_Format console) "color" then
          ColorOn Stderr level (Config.KeywordHighlight (Config.Features lc)) false
        else if String.eqb (Config.Console_Format console) "json" then JSONOn Stderr level
        else TextOn Stderr level in
      let consoleHandler :=
        if Config.SmartFilter (Config.Features lc) then
          SmartFilterOver consoleHandler
            {| SmartFilter.IgnoreGinDebug := true;
               SmartFilter.IgnoreHealthCheck := true;
               SmartFilter.MinLevel := level |}
        else consoleHandler in
      [consoleHandler]
    else [] in
  let withFile : list HandlerSpec + error :=
    if Config.File_Enabled file then
      match MkdirAll (Dir (Config.File_Path file)) with
      | Some err => inr err
      | None =>
          let rot := Config.Rotation file in
          let fileWriter :=
            RotatingFile (Config.File_Path file) (Config.MaxSize rot)
              (Config.MaxBackups rot) (Config.MaxAge rot) (Config.Compress rot) in
          let fileHandler :=
            if String.eqb (Config.File_Format file) "json" then JSONOn fileWriter level
            else TextOn fileWriter level in
          inl (handlers ++ [fileHandler])%list
      end
    else inl handlers in
  match withFile with
  | inr err => inr err
  | inl handlers =>
      let handlers :=
        if (length handlers =? 0)%nat
        then (handlers ++ [ColorOn Stderr level true false])%list
        else handlers in
      match handlers with
      | [finalHandler] => inl (Multi.Single finalHandler)
      | _ => inl (Multi.Fanout handlers)
      end
  end.

End CreateLogger.







End Logger.

(** ** Package [middleware]: the request logging middleware *)

Module Middleware.
Import Strings Slog.

Record GinMiddlewareConfig := {
  LogBody : bool;
  LogHeaders : bool;
  MaxBodySize : Z;
  SkipPaths : list string
}.

Definition DefaultGinMiddlewareConfig : GinMiddlewareConfig :=
  {| LogBody := true; LogHeaders := false; MaxBodySize := 2048;
     SkipPaths := ["/health"; "/ping"; "/metrics"] |}.

(** [GinMiddleware]: the defaults, overridden by the loaded configuration. *)
Definition configFor (GlobalConfig : option Config.Config) : GinMiddlewareConfig :=
  match GlobalConfig with
  | Some g =>
      let m := Config.Middleware (Config.Logger g) in
      {| LogBody := Config.LogBody m; LogHeaders := Config.LogHeaders m;
         MaxBodySize := Config.MaxBodySize m;
         SkipPaths := SkipPaths DefaultGinMiddlewareConfig |}
  | None => DefaultGinMiddlewareConfig
  end.

(** What the middleware reads from [*gin.Context] before [c.Next()]. *)
Record Request := {
  Method : string;
  Path : string;
  RawQuery : string;
  Header : list (string * list string);
  ContentType : string;
  (** [c.Request.Body]; [None] is a nil body *)
  Body : option string;
  UserAgent : string;
  RequestID : string;
  (** [utils.GetClientIP(c)] *)
  ClientIP : string
}.

(** What it reads after [c.Next()] has returned. *)
Record Outcome := {
  Status : Z;
  Size : Z;
  Latency : Duration;
  Errors : list string;
  (** [c.Get("cache_status")] when it is set and holds a string *)
  CacheStatus : option string;
  (** [slog.Default().Enabled(nil, slog.LevelDebug)] *)
  DebugEnabled : bool
}.

(** One call [slog.LogAttrs(ctx, level, message, attrs...)]. *)
Record LogCall := {
  call_level : Level;
  call_message : string;
  call_attrs : list Attr
}.

Definition getLogLevelForStatus (status : Z) : Level :=
  if (500 <=? status)%Z then LevelError
  else if (400 <=? status)%Z then LevelWarn
  else if (300 <=? status)%Z then LevelInfo
  else LevelInfo.

Definition shouldLogRequestBody (method contentType : string) : bool :=
  if negb (String.eqb method "POST") && negb (String.eqb method "PUT")
     && negb (String.eqb method "PATCH") then false
  else if HasPrefix contentType "multipart/form-data" then false
  else true.

Section Handler.
Context {strs : StringsPkg}.
(** [json.Unmarshal] then [json.Marshal], or the text itself when it is
    not JSON. *)
Variable formatJSONBody : string -> string.
(** The text of a [map[string]string] attribute value. *)
Variable sprintMap : list (string * string) -> string.
(** [time.Duration.String] *)
Variable durationString : Duration -> string.

Definition isSensitiveHeader (name : string) : bool :=
  existsb (String.eqb (ToLower name))
    [ "authorization"; "cookie"; "x-api-key"; "x-auth-token";
      "x-access-token"; "x-csrf-token" ].

(** [bodyStr[:maxSize]] is reached with [maxSize < len(bodyStr)]; it panics
    (slice bounds out of range) when [maxSize] is negative, which is the
    result [None]. *)
Definition prepareBodyForLogging (bodyBytes : string) (maxSize : Z) : option string :=
  if (String.length bodyBytes =? 0)%nat then Some EmptyString
  else
    let cut :=
      if (maxSize <? len bodyBytes)%Z
      then if (maxSize <? 0)%Z then None
           else Some (take (Z.to_nat maxSize) bodyBytes ++ "...(truncated)")
      else Some bodyBytes in
    match cut with
    | None => None
    | Some bodyStr =>
        let trimmed := TrimSpace bodyStr in
        if HasPrefix trimmed "{" || HasPrefix trimmed "[" then Some (formatJSONBody trimmed)
        else Some bodyStr
    end.

Definition skipped (cfg : GinMiddlewareConfig) (path : string) : bool :=
  existsb (fun skipPath => HasPrefix path skipPath) (SkipPaths cfg).

(** The handler function [GinMiddlewareWithConfig(cfg)] returns, as the
    list of calls of [slog.LogAttrs] it makes for one request; [None] when
    it panics, which it can only do in [prepareBodyForLogging], before the
    call of [slog.LogAttrs]. *)
Definition GinMiddlewareWithConfig (cfg : GinMiddlewareConfig)
    (req : Request) (out : Outcome) : option (list LogCall) :=
  let path := Path req in
  let rawQuery := RawQuery req in
  if skipped cfg path then Some []
  else
    let bodyBytes :=
      if LogBody cfg && shouldLogRequestBody (Method req) (ContentType req)
      then default EmptyString (Body req) else EmptyString in
    let requestSize := len bodyBytes in
    let status := Status out in
    let attrs : list Attr :=
      [ ("type", StringValue "http_request");
        ("method", StringValue (Method req));
        ("path", StringValue path);
        ("status", Int64Value status);
        ("latency", OtherValue (durationString (Latency out)));
        ("client_ip", StringValue (ClientIP req));
        ("user_agent", StringValue (UserAgent req));
        ("request_size", Int64Value requestSize);
        ("response_size", Int64Value (Size out)) ] in
    let attrs :=
      if negb (String.eqb rawQuery EmptyString)
      then (attrs ++ [("query", StringValue rawQuery)])%list else attrs in
    let attrs :=
      match CacheStatus out with
      | Some status => (attrs ++ [("cache", StringValue status)])%list
      | None => attrs
      end in
    let attrs :=
      if LogHeaders cfg && ((400 <=? status)%Z || DebugEnabled out) then
        let headers :=
          map (fun nv : string * list string =>
                 if isSensitiveHeader (fst nv) then (fst nv, "[FILTERED]")
                 else (fst nv, Join (snd nv) ", "))
              (Header req) in
        if (0 <? length headers)%nat
        then (attrs ++ [("headers", OtherValue (sprintMap headers))])%list
        else attrs
      else attrs in
    let withBody :=
      if LogBody cfg && (0 <? String.length bodyBytes)%nat
         && ((400 <=? status)%Z || DebugEnabled out)
      then
        match prepareBodyForLogging bodyBytes (MaxBodySize cfg) with
        | Some bodyToLog =>
            Some (attrs ++ [("request_body", StringValue bodyToLog)])%list
        | None => None
        end
      else Some attrs in
    match withBody with
    | None => None
    | Some attrs =>
        let attrs :=
          if (0 <? length (Errors out))%nat
          then (attrs ++ [("errors", StringValue (Join (Errors out) "; "))])%list
          else attrs in
        let level := getLogLevelForStatus status in
        let message := "HTTP Request" in
        let attrs :=
          if negb (String.eqb (RequestID req) EmptyString)
          then (attrs ++ [("request_id", StringValue (RequestID req))])%list
          else attrs in
        Some [ {| call_level := level; call_message := message; call_attrs := attrs |} ]
    end.
End Handler.

End Middleware.

(** ** [handler.ColorHandler] *)

Module ColorHandler.
Import Strings Slog Color Highlight.

Definition loc := nat.

(** A [*ColorHandler]: the address of the struct, with the fields that
    are never assigned after construction. *)
Record ColorHandler := {
  addr : loc;
  (** the writer [h.w] *)
  w : nat;
  (** [h.opts.Level], [None] when it is nil *)
  optsLevel : option Level
}.

(** The fields [Handle] and the setters assign.  [lastLogTime] is [None]
    for the zero time. *)
Record Fields := {
  lastLogTime : option Time;
  enableHighlight : bool;
  compactMode : bool
}.

Record State := {
  objs : gmap loc Fields;
  (** what has been written to each writer *)
  output : gmap nat string
}.

Definition fields (st : State) (l : loc) : Fields :=
  default {| lastLogTime := None; enableHighlight := true; compactMode := false |}
          (objs st !! l).

Definition written (st : State) (wr : nat) : string := default EmptyString (output st !! wr).

Definition levelColors (level : Level) : Attribute :=
  if (level =? LevelDebug)%Z then FgHiWhite
  else if (level =? LevelInfo)%Z then FgGreen
  else if (level =? LevelWarn)%Z then FgYellow
  else if (level =? LevelError)%Z then FgRed
  else FgWhite.

(** [slog.Level.String] *)
Definition Level_String (l : Level) : string :=
  let str (base : string) (val : Z) : string :=
    if (val =? 0)%Z then base
    else if (0 <? val)%Z then base ++ "+" ++ pretty val
    else base ++ pretty val in
  if (l <? LevelInfo)%Z then str "DEBUG" (l - LevelDebug)%Z
  else if (l <? LevelWarn)%Z then str "INFO" (l - LevelInfo)%Z
  else if (l <? LevelError)%Z then str "WARN" (l - LevelWarn)%Z
  else str "ERROR" (l - LevelError)%Z.

Fixpoint digitsValue (acc : Z) (s : string) : option Z :=
  match s with
  | EmptyString => Some acc
  | String a s' =>
      if Regexp.isDigit a
      then digitsValue (10 * acc + Z.of_nat (nat_of_ascii a - 48))%Z s'
      else None
  end.

(** [strconv.Atoi]: an optional sign and decimal digits, within [int]. *)
Definition Atoi (s : string) : option Z :=
  let body (t : string) : option Z :=
    match t with
    | EmptyString => None
    | _ => digitsValue 0 t
    end in
  let v :=
    match s with
    | String "-" t => option_map Z.opp (body t)
    | String "+" t => body t
    | _ => body s
    end in
  match v with
  | Some z => if (minDuration <=? z)%Z && (z <=? maxDuration)%Z then Some z else None
  | None => None
  end.

(** Splits at line feeds, after turning each backslash followed by [n]
    into a line feed. *)
Definition splitLines (s : string) : list string :=
  let nl := ascii_of_nat 10 in
  SplitByte nl (ReplaceAll s (String (ascii_of_nat 92) "n") (String nl EmptyString)).

Definition newline : string := String (ascii_of_nat 10) EmptyString.

Section Methods.
Context {painter : Painter}.
(** [time.Time.Format] *)
Variable formatTime : string -> Time -> string.
(** The order in which the runtime ranges over [keywordColors]. *)
Variable rangeOrder : list (string * Attribute).

Definition NewColorHandlerWithOptions (wr : nat) (level : option Level)
    (highlight compact : bool) (st : State) : ColorHandler * State :=
  let l := fresh (dom (objs st)) in
  ({| addr := l; w := wr; optsLevel := level |},
   {| objs := <[l := {| lastLogTime := None; enableHighlight := highlight;
                        compactMode := compact |}]> (objs st);
      output := output st |}).

Definition Enabled_ (h : ColorHandler) (level : Level) : bool :=
  let minLevel := match optsLevel h with Some l => l | None => LevelInfo end in
  (minLevel <=? level)%Z.

(** The text [handleAttr] writes to [h.w] for one attribute. *)
Fixpoint handleAttr (highlight : bool) (key : string) (v : Value) (indent : nat)
    : string :=
  let indentStr := Repeat "    " indent in
  let valStr := Value_String v in
  if String.eqb key "error" || String.eqb key "stack" || String.eqb key "trace" then
    Sprint [FgHiRed] (indentStr ++ key ++ ":" ++ newline)
    ++ String.concat EmptyString
         (map (fun line =>
                 if String.eqb line EmptyString then EmptyString
                 else Sprint [FgHiRed] (indentStr ++ "    " ++ line ++ newline))
              (splitLines valStr))
  else
    let keyText := Sprint [FgCyan] (indentStr ++ key ++ ": ") in
    let line (attrs : list Attribute) := Sprint attrs (valStr ++ newline) in
    if String.eqb key "method" then keyText ++ line [FgHiBlue; Bold]
    else if String.eqb key "status" || String.eqb key "status_code" then
      match Atoi valStr with
      | Some status =>
          if (500 <=? status)%Z then keyText ++ line [FgRed; Bold]
          else if (400 <=? status)%Z then keyText ++ line [FgYellow; Bold]
          else if (200 <=? status)%Z then keyText ++ line [FgGreen; Bold]
          else keyText ++ line [FgWhite]
      | None => keyText ++ line [FgWhite]
      end
    else if String.eqb key "duration" || String.eqb key "latency" then
      keyText ++ line [FgMagenta]
    else if String.eqb key "url" || String.eqb key "path" then
      keyText ++ line [FgCyan; Underline]
    else if String.eqb key "ip" || String.eqb key "client_ip" then
      keyText ++ line [FgYellow]
    else if String.eqb key "cache" || String.eqb key "cache_status" then
      if String.eqb valStr "HIT" then keyText ++ line [FgGreen]
      else if String.eqb valStr "MISS" then keyText ++ line [FgYellow]
      else keyText ++ line [FgMagenta]
    else if String.eqb key "user_id" || String.eqb key "session_id" then
      keyText ++ line [FgCyan; Bold]
    else
      match v with
      | GroupValue g =>
          keyText ++ newline
          ++ String.concat EmptyString
               (map (fun ga => handleAttr highlight (fst ga) (snd ga) (Datatypes.S indent)) g)
      | _ => keyText ++ colorize rangeOrder valStr highlight ++ newline
      end.

(** [ColorHandler.Handle], under [h.mu]; the results of the writes are
    not looked at and the method returns nil. *)
Definition Handle_ (h : ColorHandler) (now : Time) (r : Record_) (st : State)
    : State * option error :=
  let f := fields st (addr h) in
  let gap :=
    match lastLogTime f with
    | Some last =>
        if negb (compactMode f) && (200 * Millisecond <? Sub now last)%Z
        then newline else EmptyString
    | None => EmptyString
    end in
  let levelColor := levelColors (Level_ r) in
  let head :=
    Sprint [levelColor] ("[" ++ Level_String (Level_ r) ++ "]")
    ++ " " ++ (if compactMode f then formatTime "15:04:05.000" (Time_ r)
               else formatTime "2006-01-02 15:04:05.000" (Time_ r)) in
  let colorizedMessage := colorize rangeOrder (Message r) (enableHighlight f) in
  let attrsText :=
    String.concat EmptyString
      (map (fun a : Attr => handleAttr (enableHighlight f) (fst a) (snd a) 1) (Attrs r)) in
  let text := gap ++ head ++ " " ++ colorizedMessage ++ newline ++ attrsText in
  ({| objs := <[addr h := {| lastLogTime := Some now;
                             enableHighlight := enableHighlight f;
                             compactMode := compactMode f |}]> (objs st);
      output := <[w h := written st (w h) ++ text]> (output st) |},
   None).

Definition WithAttrs_ (h : ColorHandler) (attrs : list Attr) (st : State)
    : ColorHandler * State := (h, st).

Definition WithGroup_ (h : ColorHandler) (name : string) (st : State)
    : ColorHandler * State := (h, st).

#[export] Instance ColorHandler_Handler : Handler ColorHandler State :=
  {| Enabled := Enabled_; Handle := Handle_;
     WithAttrs := WithAttrs_; WithGroup := WithGroup_ |}.

End Methods.

End ColorHandler.


(** ** A handler for experiments

    A sink that is enabled from a minimum level on, keeps the records it is
    given, in order, and fails on every write when told to. *)

Module Probe.
Import Slog.

Record Probe := {
minimum : Level;
failing : bool
}.

Definition Enabled_ (p : Probe) (level : Level) : bool := (minimum p <=? level)%Z.

Definition Handle_ (p : Probe) (now : Time) (r : Record_) (seen : list Record_)
    : list Record_ * option error :=
  ((seen ++ [r])%list, if failing p then Some "write failed" else None).

#[export] Instance Probe_Handler : Handler Probe (list Record_) :=
  {| Enabled := Enabled_; Handle := Handle_;
     WithAttrs := fun p _ seen => (p, seen);
     WithGroup := fun p _ seen => (p, seen) |}.

End Probe.

(** ** The handlers of the examples *)

Module Scenario.
Import Slog SmartFilter Probe.

#[export] Existing Instance ascii_strings.

Definition console : Probe := {| minimum := LevelInfo; failing := false |}.

(** The filter configuration [createLogger] uses, at level [info]. *)
Definition filterConfig : FilterConfig :=
  {| IgnoreGinDebug := true; IgnoreHealthCheck := true; MinLevel := LevelInfo |}.

Definition filter0 : SmartFilterHandler Probe :=
  fst (NewSmartFilterHandler console filterConfig emptyStore).

Definition store0 : Store :=
  snd (NewSmartFilterHandler console filterConfig emptyStore).

Definition connectionReset (t : Time) : Record_ :=
  {| Time_ := t; Message := "connection reset by peer"; Level_ := LevelError; Attrs := [] |}.

Definition userLoggedIn (t : Time) : Record_ :=
  {| Time_ := t; Message := "user logged in"; Level_ := LevelInfo; Attrs := [] |}.

(** A wrapped handler that is enabled from [error] on, behind a filter whose
    own minimum is [info]. *)
Definition errorsOnly : Probe := {| minimum := LevelError; failing := false |}.

Definition filterOverErrorsOnly : SmartFilterHandler Probe :=
  fst (NewSmartFilterHandler errorsOnly filterConfig emptyStore).

(** The handler [logger.With("request_id", ...)] derives from [filter0]. *)
Definition derived0 : SmartFilterHandler Probe :=
  fst (WithAttrs_ filter0 [("request_id", StringValue "req_1")] (@nil Record_, store0)).

Definition storeDerived0 : Store :=
  snd (snd (WithAttrs_ filter0 [("request_id", StringValue "req_1")] (@nil Record_, store0))).

Definition brokenPipe (t : Time) : Record_ :=
  {| Time_ := t; Message := "broken pipe"; Level_ := LevelError; Attrs := [] |}.

(** The store after [filter0] has handled ["broken pipe"] at instant 0. *)
Definition storeAfterBrokenPipe : Store :=
  snd (fst (SmartFilter.Handle_ filter0 0 (brokenPipe 0) (@nil Record_, store0))).

(** The sinks of the default configuration: the console, and a file sink
    whose writes fail (a full disk). *)
Definition failingFile : Probe := {| minimum := LevelInfo; failing := true |}.

Definition sinks : list Probe := [console; failingFile].

(** [slog.SetDefault(logger)] in [InitWithDefaults]: the default logger is
    the logger over the fan-out handler. *)
Definition defaultAfterInit : Multi.DefaultLogger Probe :=
  Multi.Installed (Multi.Fanout sinks).

Definition sinksFailingFirst : list Probe := [failingFile; console].

Definition defaultFailingFirst : Multi.DefaultLogger Probe :=
  Multi.Installed (Multi.Fanout sinksFailingFirst).

Definition noCalls : Multi.MState (list Record_) :=
  {| Multi.inner := []; Multi.calls := [] |}.

(** The scenario of the specification: [POST /api/v1/users], status 201. *)
Definition createUser : Middleware.Request :=
  {| Middleware.Method := "POST"; Middleware.Path := "/api/v1/users";
     Middleware.RawQuery := EmptyString; Middleware.Header := [];
     Middleware.ContentType := "application/json";
     Middleware.Body := Some "{}"; Middleware.UserAgent := "curl";
     Middleware.RequestID := "req_1"; Middleware.ClientIP := "10.0.0.1" |}.

Definition outcome (status : Z) : Middleware.Outcome :=
  {| Middleware.Status := status; Middleware.Size := 2; Middleware.Latency := Millisecond;
     Middleware.Errors := []; Middleware.CacheStatus := None;
     Middleware.DebugEnabled := false |}.

(** A path that only begins with a configured skip path. *)
Definition healthz : Middleware.Request :=
  {| Middleware.Method := "GET"; Middleware.Path := "/healthz";
     Middleware.RawQuery := EmptyString; Middleware.Header := [];
     Middleware.ContentType := EmptyString;
     Middleware.Body := None; Middleware.UserAgent := "curl";
     Middleware.RequestID := EmptyString; Middleware.ClientIP := "10.0.0.1" |}.

(** Stand-ins for the library functions the middleware calls. *)
Definition sameText (s : string) : string := s.
Definition showMap (m : list (string * string)) : string :=
  Strings.Join (map (fun kv => fst kv ++ ":" ++ snd kv) m) " ".
Definition showDuration (d : Duration) : string := pretty d ++ "ns".

(** The default configuration with the three privacy toggles switched on. *)
Definition maskingOn : Config.Config :=
  let l := Config.Logger Config.defaults in
  let f := Config.Features l in
  {| Config.Logger :=
       {| Config.Level := Config.Level l; Config.Format := Config.Format l;
          Config.Output := Config.Output l;
          Config.Features :=
            {| Config.SmartFilter := Config.SmartFilter f;
               Config.KeywordHighlight := Config.KeywordHighlight f;
               Config.AutoSampling := Config.AutoSampling f;
               Config.PerformanceTracking := Config.PerformanceTracking f;
               Config.Privacy := {| Config.EnableEmailMask := true;
                                    Config.EnablePhoneMask := true;
                                    Config.EnableInputSanitize := true |} |};
          Config.Middleware := Config.Middleware l;
          Config.Viewer := Config.Viewer l |} |}.

Definition lf : string := String (ascii_of_nat 10) EmptyString.

(** A request that carries credentials, and a configuration that logs
    headers. *)
Definition withCredentials : Middleware.Request :=
  {| Middleware.Method := "GET"; Middleware.Path := "/api/v1/users/7";
     Middleware.RawQuery := "verbose=1";
     Middleware.Header := [("Authorization", ["Bearer abc"]); ("Accept", ["text/html"; "*/*"])];
     Middleware.ContentType := EmptyString;
     Middleware.Body := None; Middleware.UserAgent := "curl";
     Middleware.RequestID := "req_2"; Middleware.ClientIP := "10.0.0.2" |}.

Definition logEverything : Middleware.GinMiddlewareConfig :=
  {| Middleware.LogBody := true; Middleware.LogHeaders := true;
     Middleware.MaxBodySize := 16; Middleware.SkipPaths := ["/health"] |}.

(** A configuration file that sets [max_body_size: -1]. *)
Definition negativeBodyLimit : Middleware.GinMiddlewareConfig :=
  {| Middleware.LogBody := true; Middleware.LogHeaders := false;
     Middleware.MaxBodySize := -1; Middleware.SkipPaths := ["/health"] |}.

(** A message that names a context error and chromedp. *)
Definition deadlineInChromedp (t : Time) : Record_ :=
  {| Time_ := t; Message := "context deadline exceeded while waiting for chromedp";
     Level_ := LevelError; Attrs := [] |}.

End Scenario.

(** * Properties *)

Import Probe Scenario.

(** ** The deduplication rule *)

Module DedupProperties.
Import Slog SmartFilter.

Lemma Sub_add (t d : Z) : (0 <= d <= 2 ^ 62)%Z -> Sub (t + d) t = d.
Proof.
  intros Hd. unfold Sub, maxDuration, minDuration.
  replace (t + d - t)%Z with d by lia.
  change (2 ^ 63)%Z with 9223372036854775808%Z.
  change (2 ^ 62)%Z with 4611686018427387904%Z in Hd. lia.
Qed.

Lemma tracker_setTracker (st : Store) (l : loc) (m : gmap string Time) :
  tracker (setTracker st l m) l = m.
Proof. unfold tracker, setTracker; simpl. by rewrite lookup_insert_eq. Qed.

Lemma tracker_setTracker_ne (st : Store) (l l' : loc) (m : gmap string Time) :
  l ≠ l' -> tracker (setTracker st l m) l' = tracker st l'.
Proof. intros Hne. unfold tracker, setTracker; simpl. by rewrite lookup_insert_ne. Qed.

Section Rule.
Context {H S : Type} `{Handler H S} {strs : StringsPkg}.

(** No entry for the message: it is let through and recorded at [now]. *)
Lemma dedup_absent (h : SmartFilterHandler H) (now : Time) (msg : string) (st : Store) :
  tracker st (errorTracker h) !! msg = None ->
  exists st', shouldFilterDuplicateError h now msg st = (false, st')
    /\ tracker st' (errorTracker h) !! msg = Some now.
Proof.
  intros Hnone. unfold shouldFilterDuplicateError.
  rewrite (proj2 (map_lookup_filter_None _ _ _)); [|by left].
  eexists; split; [reflexivity|].
  rewrite tracker_setTracker. apply lookup_insert_eq.
Qed.

(** An entry younger than the window: the message is filtered and the entry
    keeps its timestamp. *)
Lemma dedup_recent (h : SmartFilterHandler H) (now t0 : Time) (msg : string) (st : Store) :
  tracker st (errorTracker h) !! msg = Some t0 ->
  (Sub now t0 < errorWindow h)%Z ->
  exists st', shouldFilterDuplicateError h now msg st = (true, st')
    /\ tracker st' (errorTracker h) !! msg = Some t0.
Proof.
  intros Hsome Hlt. unfold shouldFilterDuplicateError.
  assert (Hkeep : filter (fun kv : string * Time => ¬ (Sub now (snd kv) > errorWindow h)%Z)
                    (tracker st (errorTracker h)) !! msg = Some t0).
  { apply map_lookup_filter_Some. split; [done|]. simpl. lia. }
  rewrite Hkeep.
  destruct (Sub now t0 <? errorWindow h)%Z eqn:E; [|apply Z.ltb_ge in E; lia].
  eexists; split; [reflexivity|].
  by rewrite tracker_setTracker.
Qed.

(** An entry at least as old as the window: the message is let through and
    the entry is overwritten with [now]. *)
Lemma dedup_stale (h : SmartFilterHandler H) (now t0 : Time) (msg : string) (st : Store) :
  tracker st (errorTracker h) !! msg = Some t0 ->
  (errorWindow h <= Sub now t0)%Z ->
  exists st', shouldFilterDuplicateError h now msg st = (false, st')
    /\ tracker st' (errorTracker h) !! msg = Some now.
Proof.
  intros Hsome Hge. unfold shouldFilterDuplicateError.
  destruct (filter _ (tracker st (errorTracker h)) !! msg) as [t1|] eqn:E.
  - apply map_lookup_filter_Some in E as [E _].
    rewrite Hsome in E. injection E as <-.
    destruct (Sub now t0 <? errorWindow h)%Z eqn:E'; [apply Z.ltb_lt in E'; lia|].
    eexists; split; [reflexivity|].
    rewrite tracker_setTracker. apply lookup_insert_eq.
  - eexists; split; [reflexivity|].
    rewrite tracker_setTracker. apply lookup_insert_eq.
Qed.

(** The duplicate rule on its own.  A message whose lowercased text holds
    one of the four phrases, a window of five minutes, no entry for the
    message yet: the rule lets the call at [T] through and records [T]; it
    filters the same message at [T + 1min] and leaves the timestamp [T]; it
    lets the same message through at [T + 6min] and records [T + 6min]. *)
Lemma dedup_three_calls (h : SmartFilterHandler H) (msg : string) (T : Time) (st : Store) :
  isContextError msg = true ->
  errorWindow h = (5 * Minute)%Z ->
  tracker st (errorTracker h) !! msg = None ->
  exists st1 st2 st3,
    isDuplicateContextError h T msg st = (false, st1)
    /\ tracker st1 (errorTracker h) !! msg = Some T
    /\ isDuplicateContextError h (T + 1 * Minute) msg st1 = (true, st2)
    /\ tracker st2 (errorTracker h) !! msg = Some T
    /\ isDuplicateContextError h (T + 6 * Minute) msg st2 = (false, st3)
    /\ tracker st3 (errorTracker h) !! msg = Some (T + 6 * Minute)%Z.
Proof.
  intros Hnoisy Hwin Hnone. unfold isDuplicateContextError. rewrite Hnoisy.
  destruct (dedup_absent h T msg st Hnone) as (st1 & E1 & L1).
  destruct (dedup_recent h (T + 1 * Minute) T msg st1 L1) as (st2 & E2 & L2).
  { rewrite Sub_add, Hwin; unfold Minute, Second, Millisecond; [lia|].
    change (2 ^ 62)%Z with 4611686018427387904%Z. lia. }
  destruct (dedup_stale h (T + 6 * Minute) T msg st2 L2) as (st3 & E3 & L3).
  { rewrite Sub_add, Hwin; unfold Minute, Second, Millisecond; [lia|].
    change (2 ^ 62)%Z with 4611686018427387904%Z. lia. }
  exists st1, st2, st3. repeat split; assumption.
Qed.

End Rule.

End DedupProperties.

(** ** The filtering handler *)

Module FilterProperties.
Import Slog SmartFilter DedupProperties.

Lemma Sub_same (t : Time) : Sub t t = 0%Z.
Proof.
  unfold Sub, maxDuration, minDuration. rewrite Z.sub_diag.
  change (2 ^ 63)%Z with 9223372036854775808%Z. lia.
Qed.

Section Handle.
Context {H S : Type} `{Handler H S} {strs : StringsPkg}.

(** A record no test rejects goes to the wrapped handler, whose result is
    the result of [Handle]. *)
Lemma Handle_forwards (h : SmartFilterHandler H) (now : Time) (r : Record_) (st : S * Store) :
  rejected h now r (snd st) = false ->
  SmartFilter.Handle_ h now r st =
    ((fst (Handle (handler h) now r (fst st)),
      snd (isDuplicateContextError h now (Message r) (snd st))),
     snd (Handle (handler h) now r (fst st))).
Proof.
  unfold rejected, stoppedEarly, SmartFilter.Handle_.
  intros Hrej.
  apply orb_false_elim in Hrej as [Hrej Hblank].
  apply orb_false_elim in Hrej as [Hrej Hdup].
  repeat (apply orb_false_elim in Hrej as [Hrej ?]).
  rewrite Hrej, Hblank.
  repeat match goal with E : _ = false |- _ => rewrite E; clear E end.
  destruct (isDuplicateContextError h now (Message r) (snd st)) as [dup fs]; simpl in *.
  subst dup.
  destruct (Handle (handler h) now r (fst st)); reflexivity.
Qed.

(** A record some test rejects does not reach the wrapped handler. *)
Lemma Handle_rejects (h : SmartFilterHandler H) (now : Time) (r : Record_) (st : S * Store) :
  rejected h now r (snd st) = true ->
  fst (fst (SmartFilter.Handle_ h now r st)) = fst st
  /\ snd (SmartFilter.Handle_ h now r st) = None.
Proof.
  unfold rejected, stoppedEarly, SmartFilter.Handle_. intros Hrej.
  destruct (Level_ r <? minLevel h)%Z; [done|].
  destruct (ignoreGinDebug h && _); [done|].
  destruct (Regexp.MatchString (cookiePartitionRegex h) _); [done|].
  destruct (Regexp.MatchString (chromedpInternalRegex h) _); [done|].
  destruct (ignoreHealthCheck h && _); [done|].
  destruct (isDuplicateContextError h now (Message r) (snd st)) as [dup fs]; simpl in *.
  destruct dup; [done|].
  destruct (String.eqb (TrimSpace (Message r)) EmptyString); [done|discriminate].
Qed.

(** A record stopped before the duplicate rule, or whose message is not a
    context error, leaves the store as it is. *)
Lemma Handle_store_unchanged (h : SmartFilterHandler H) (now : Time) (r : Record_)
    (st : S * Store) :
  stoppedEarly h r = true \/ isContextError (Message r) = false ->
  snd (fst (SmartFilter.Handle_ h now r st)) = snd st.
Proof.
  unfold stoppedEarly, SmartFilter.Handle_, isDuplicateContextError. intros Hcase.
  destruct (Level_ r <? minLevel h)%Z; [done|].
  destruct (ignoreGinDebug h && _); [done|].
  destruct (Regexp.MatchString (cookiePartitionRegex h) _); [done|].
  destruct (Regexp.MatchString (chromedpInternalRegex h) _); [done|].
  destruct (ignoreHealthCheck h && _); [done|].
  destruct Hcase as [Hcase|Hcase]; [discriminate|]. rewrite Hcase.
  destruct (String.eqb (TrimSpace (Message r)) EmptyString); [done|].
  destruct (Handle (handler h) now r (fst st)); reflexivity.
Qed.

(** After the duplicate rule has run at [now], no entry of the map is older
    than the window. *)
Lemma dedup_leaves_no_stale (h : SmartFilterHandler H) (now : Time) (msg : string)
    (st : Store) (k : string) (ts : Time) :
  (0 <= errorWindow h)%Z ->
  tracker (snd (shouldFilterDuplicateError h now msg st)) (errorTracker h) !! k = Some ts ->
  (Sub now ts <= errorWindow h)%Z.
Proof.
  intros Hwin. unfold shouldFilterDuplicateError.
  set (purged := filter _ (tracker st (errorTracker h))).
  assert (Hp : forall k' t', purged !! k' = Some t' -> (Sub now t' <= errorWindow h)%Z).
  { intros k' t' E. apply map_lookup_filter_Some in E as [_ E]. simpl in E. lia. }
  assert (Hi : forall k' t', <[msg := now]> purged !! k' = Some t' ->
                             (Sub now t' <= errorWindow h)%Z).
  { intros k' t' E. destruct (decide (msg = k')) as [->|Hne].
    - rewrite lookup_insert_eq in E. injection E as <-. rewrite Sub_same. exact Hwin.
    - rewrite lookup_insert_ne in E by done. eauto. }
  destruct (purged !! msg) as [lastTime|].
  - destruct (Sub now lastTime <? errorWindow h)%Z; simpl;
      rewrite tracker_setTracker; eauto.
  - simpl. rewrite tracker_setTracker. eauto.
Qed.

Lemma Handle_store_after_dedup (h : SmartFilterHandler H) (now : Time) (r : Record_)
    (st : S * Store) :
  stoppedEarly h r = false ->
  isContextError (Message r) = true ->
  snd (fst (SmartFilter.Handle_ h now r st))
  = snd (shouldFilterDuplicateError h now (Message r) (snd st)).
Proof.
  unfold stoppedEarly, SmartFilter.Handle_, isDuplicateContextError.
  intros Hearly Hnoisy.
  repeat (apply orb_false_elim in Hearly as [Hearly ?]).
  rewrite Hearly.
  repeat match goal with E : _ = false |- _ => rewrite E; clear E end.
  rewrite Hnoisy.
  destruct (shouldFilterDuplicateError h now (Message r) (snd st)) as [dup fs]; simpl.
  destruct dup; [done|].
  destruct (String.eqb (TrimSpace (Message r)) EmptyString); [done|].
  destruct (Handle (handler h) now r (fst st)); reflexivity.
Qed.

End Handle.

End FilterProperties.

Module FilterClaims.
Import Slog SmartFilter DedupProperties FilterProperties.

(** C2, as stated, fails: the wrapped handler is enabled from [error] on,
    the record has level [info] and passes every test of the filter, and
    [Handle] passes it to the wrapped handler, which keeps it. *)
Lemma wrapped_disabled_yet_forwarded :
  rejected filterOverErrorsOnly 0 (userLoggedIn 0) store0 = false
  /\ Enabled (handler filterOverErrorsOnly) (Level_ (userLoggedIn 0)) = false
  /\ fst (fst (SmartFilter.Handle_ filterOverErrorsOnly 0 (userLoggedIn 0)
                 (@nil Record_, store0))) = [userLoggedIn 0].
Proof. repeat split; vm_compute; reflexivity. Qed.

(** C3, as stated, fails: an entry recorded at instant 0 is still in the map
    after a record with another message was handled ten minutes later. *)
Lemma stale_entry_survives :
  let st' := snd (fst (SmartFilter.Handle_ filter0 (10 * Minute) (userLoggedIn (10 * Minute))
                         (@nil Record_, storeAfterBrokenPipe))) in
  tracker st' (errorTracker filter0) !! "broken pipe" = Some 0%Z
  /\ (Sub (10 * Minute) 0 > errorWindow filter0)%Z.
Proof. split; vm_compute; reflexivity. Qed.

Section Claims.
Context {H S : Type} `{Handler H S} {strs : StringsPkg}.

(** C2, amended. A record that no test of the filter rejects is passed to
    the wrapped handler by [Handle] without a look at the wrapped handler's
    [Enabled]; the wrapped handler's [Enabled] is part of the filter's own
    [Enabled], so a caller that tests [Enabled] first, as the loop of
    [MultiHandler.Handle] does, makes no call when the wrapped handler is not
    enabled for the level. *)
Theorem forwards_without_asking_wrapped (h : SmartFilterHandler H) (now : Time)
    (r : Record_) (st : S * Store)
    (report : error -> Multi.MState (S * Store) -> option (Multi.MState (S * Store)))
    (i : nat) (mst : Multi.MState (S * Store)) :
  rejected h now r (snd st) = false ->
  SmartFilter.Handle_ h now r st =
    ((fst (Handle (handler h) now r (fst st)),
      snd (isDuplicateContextError h now (Message r) (snd st))),
     snd (Handle (handler h) now r (fst st)))
  /\ SmartFilter.Enabled_ h (Level_ r)
     = ((minLevel h <=? Level_ r)%Z && Enabled (handler h) (Level_ r))
  /\ (Enabled (handler h) (Level_ r) = false ->
      Multi.dispatch report i [h] now r mst = Some mst).
Proof.
  intros Hpass. split; [by apply Handle_forwards|]. split; [reflexivity|].
  intros Hoff. simpl. unfold SmartFilter.Enabled_. rewrite Hoff, andb_false_r.
  reflexivity.
Qed.

(** C3, amended. When a record reaches the duplicate rule with a message
    classified as a context error, no entry of the map is older than the
    window after [Handle]; a record that is stopped before the rule, or whose
    message is not so classified, leaves the map as it was. *)
Theorem purge_only_on_dedup_path (h : SmartFilterHandler H) (now : Time)
    (r : Record_) (st : S * Store) :
  (0 <= errorWindow h)%Z ->
  (stoppedEarly h r = false -> isContextError (Message r) = true ->
   forall k ts,
     tracker (snd (fst (SmartFilter.Handle_ h now r st))) (errorTracker h) !! k = Some ts ->
     (Sub now ts <= errorWindow h)%Z)
  /\ (stoppedEarly h r = true \/ isContextError (Message r) = false ->
      snd (fst (SmartFilter.Handle_ h now r st)) = snd st).
Proof.
  intros Hwin. split.
  - intros Hearly Hnoisy k ts. rewrite Handle_store_after_dedup by assumption.
    by apply dedup_leaves_no_stale.
  - apply Handle_store_unchanged.
Qed.

(** The duplicate rule reads only the map reference and the window of the
    handler. *)
Lemma dedup_same_tracker (h d : SmartFilterHandler H) (now : Time) (msg : string)
    (st : Store) :
  errorTracker d = errorTracker h -> errorWindow d = errorWindow h ->
  isDuplicateContextError d now msg st = isDuplicateContextError h now msg st.
Proof.
  intros Et Ew. unfold isDuplicateContextError, shouldFilterDuplicateError.
  by rewrite Et, Ew.
Qed.

(** The struct of a derived handler holds the map reference of the handler
    it derives from. *)
Lemma derive_shares_map (h : SmartFilterHandler H) (inner : H) (st : Store) :
  errorTracker (fst (derive h inner st)) = errorTracker h
  /\ errorWindow (fst (derive h inner st)) = errorWindow h
  /\ maps (snd (derive h inner st)) = maps st.
Proof. repeat split. Qed.

(** In a sequential run duplicate detection is common to a handler and the
    handlers derived from it: a message let through by one is filtered by the
    other one minute later, in both directions. *)
Lemma dedup_across_derived (h d : SmartFilterHandler H) (msg : string) (T : Time)
    (st : Store) :
  errorTracker d = errorTracker h -> errorWindow d = errorWindow h ->
  errorWindow h = (5 * Minute)%Z ->
  isContextError msg = true ->
  tracker st (errorTracker h) !! msg = None ->
  (exists st1 st2,
      isDuplicateContextError h T msg st = (false, st1)
      /\ isDuplicateContextError d (T + 1 * Minute) msg st1 = (true, st2))
  /\ (exists st1 st2,
      isDuplicateContextError d T msg st = (false, st1)
      /\ isDuplicateContextError h (T + 1 * Minute) msg st1 = (true, st2)).
Proof.
  intros Et Ew Hwin Hnoisy Hnone.
  assert (Hone : (Sub (T + 1 * Minute) T < errorWindow h)%Z).
  { rewrite Sub_add, Hwin; unfold Minute, Second, Millisecond; [lia|].
    change (2 ^ 62)%Z with 4611686018427387904%Z. lia. }
  unfold isDuplicateContextError. rewrite Hnoisy.
  split.
  - destruct (dedup_absent h T msg st Hnone) as (st1 & E1 & L1).
    rewrite <- Et in L1.
    destruct (dedup_recent d (T + 1 * Minute) T msg st1 L1) as (st2 & E2 & _).
    { by rewrite Ew. }
    by exists st1, st2.
  - rewrite <- Et in Hnone.
    destruct (dedup_absent d T msg st Hnone) as (st1 & E1 & L1).
    rewrite Et in L1.
    destruct (dedup_recent h (T + 1 * Minute) T msg st1 L1 Hone) as (st2 & E2 & _).
    by exists st1, st2.
Qed.

(** A mutex excludes a second [Lock]. *)
Lemma enter_excludes (h : SmartFilterHandler H) (st st1 : Store) :
  enter h st = Some st1 -> enter h st1 = None.
Proof.
  unfold enter, Lock. destruct (mutex st (errorMutex h)); [|discriminate].
  intros [= <-]. unfold mutex, setMutex; simpl. by rewrite lookup_insert_eq.
Qed.

(** The mutex of a derived handler is a variable of its own: while the
    handler it derives from is inside its critical section, the derived one
    can enter too, on the same map. *)
Lemma derived_can_overlap (h : SmartFilterHandler H) (inner : H) (st : Store) :
  (errorMutex h < next st)%nat ->
  mutex st (errorMutex h) = Unlocked ->
  errorMutex (fst (derive h inner st)) ≠ errorMutex h
  /\ canOverlap h (fst (derive h inner st)) (snd (derive h inner st)).
Proof.
  intros Hlt Hfree. split; [simpl; lia|].
  split; [reflexivity|].
  unfold enter, Lock, mutex, setMutex; simpl.
  rewrite lookup_insert_ne by lia. fold (mutex st (errorMutex h)). rewrite Hfree.
  eexists _, _. split; [reflexivity|]. simpl.
  rewrite lookup_insert_ne by lia. rewrite lookup_insert_eq. simpl.
  reflexivity.
Qed.

End Claims.

(** C4, on the handler [createLogger] builds and the handler
    [WithAttrs] derives from it: both hold the same map, the derived handler
    locks a mutex variable of its own, so that the two can be inside their
    critical sections at once, which two calls through one handler cannot. *)
Theorem derived_handler_copies_mutex :
  errorTracker derived0 = errorTracker filter0
  /\ errorMutex derived0 ≠ errorMutex filter0
  /\ canOverlap filter0 derived0 storeDerived0
  /\ ¬ canOverlap filter0 filter0 storeDerived0.
Proof.
  split; [reflexivity|]. split; [vm_compute; lia|]. split.
  - split; [reflexivity|]. eexists _, _.
    split; [vm_compute; reflexivity|vm_compute; reflexivity].
  - intros [_ (st1 & st2 & E1 & E2)].
    pose proof (enter_excludes filter0 _ _ E1) as E. congruence.
Qed.

(** C2 at the handler of the counterexample. *)
Lemma forwards_without_asking_wrapped_witness :
  let h := filterOverErrorsOnly in
  let r := userLoggedIn 0 in
  let st := (@nil Record_, store0) in
  let mst := {| Multi.inner := st; Multi.calls := [] |} in
  rejected h 0 r (snd st) = false
  /\ Enabled (handler h) (Level_ r) = false
  /\ SmartFilter.Handle_ h 0 r st =
       ((fst (Handle (handler h) 0 r (fst st)),
         snd (isDuplicateContextError h 0 (Message r) (snd st))),
        snd (Handle (handler h) 0 r (fst st)))
  /\ SmartFilter.Enabled_ h (Level_ r)
     = ((minLevel h <=? Level_ r)%Z && Enabled (handler h) (Level_ r))
  /\ Multi.dispatch (fun _ s => Some s) 0 [h] 0 r mst = Some mst.
Proof.
  cbv zeta.
  destruct (forwards_without_asking_wrapped filterOverErrorsOnly 0 (userLoggedIn 0)
              (@nil Record_, store0) (fun _ s => Some s) 0
              {| Multi.inner := (@nil Record_, store0); Multi.calls := [] |})
    as (Hfwd & Hen & Hskip).
  - vm_compute. reflexivity.
  - split; [vm_compute; reflexivity|]. split; [vm_compute; reflexivity|].
    split; [exact Hfwd|]. split; [exact Hen|].
    apply Hskip. vm_compute. reflexivity.
Defined.

(** C3 at the store of the counterexample, with a context error as the
    message. *)
Lemma purge_only_on_dedup_path_witness :
  let h := filter0 in
  let now := (10 * Minute)%Z in
  let r := connectionReset now in
  let st := (@nil Record_, storeAfterBrokenPipe) in
  (0 <= errorWindow h)%Z
  /\ stoppedEarly h r = false
  /\ isContextError (Message r) = true
  /\ forall k ts,
       tracker (snd (fst (SmartFilter.Handle_ h now r st))) (errorTracker h) !! k = Some ts ->
       (Sub now ts <= errorWindow h)%Z.
Proof.
  cbv zeta.
  destruct (purge_only_on_dedup_path filter0 (10 * Minute)
              (connectionReset (10 * Minute)) (@nil Record_, storeAfterBrokenPipe))
    as [Hfresh _].
  - vm_compute. discriminate.
  - split; [vm_compute; discriminate|].
    split; [vm_compute; reflexivity|]. split; [vm_compute; reflexivity|].
    apply Hfresh; vm_compute; reflexivity.
Defined.

End FilterClaims.

(** ** Three calls with a context error *)

Module DedupClaim.
Import Strings Slog SmartFilter DedupProperties FilterProperties.

(** C1, as stated, fails: the message holds the phrase
    [context deadline exceeded], the window is five minutes, the map has no
    entry for the message and the record has level [error]; yet the first
    call of [Handle] does not let the record through: the wrapped handler
    receives nothing and no timestamp is recorded, because the fourth test
    of [Handle] (the chromedp pattern) returns before the duplicate rule. *)
Lemma noisy_first_call_not_forwarded :
  isContextError (Message (deadlineInChromedp 0)) = true
  /\ errorWindow filter0 = (5 * Minute)%Z
  /\ tracker store0 (errorTracker filter0) !! Message (deadlineInChromedp 0) = None
  /\ (minLevel filter0 <= Level_ (deadlineInChromedp 0))%Z
  /\ SmartFilter.Handle_ filter0 0 (deadlineInChromedp 0) (@nil Record_, store0)
     = ((@nil Record_, store0), None).
Proof.
  split; [vm_compute; reflexivity|]. split; [reflexivity|].
  split; [vm_compute; reflexivity|]. split; [vm_compute; discriminate|].
  vm_compute. reflexivity.
Qed.

(** Text that holds nothing but white space. *)
Fixpoint blank (s : string) : bool :=
  match s with
  | EmptyString => true
  | String a s' => isAsciiSpace a && blank s'
  end.

Lemma trimLeft_empty (s : string) : trimLeft s = EmptyString -> blank s = true.
Proof.
  induction s as [|a s IH]; [done|]. simpl.
  destruct (isAsciiSpace a); [exact IH|discriminate].
Qed.

Lemma trimLeft_head (s : string) (a : ascii) (t : string) :
  trimLeft s = String a t -> isAsciiSpace a = false.
Proof.
  induction s as [|b s IH]; [discriminate|]. simpl.
  destruct (isAsciiSpace b) eqn:E; [exact IH|]. by intros [= <- _].
Qed.

Lemma trimRight_empty (s : string) : trimRight s = EmptyString -> blank s = true.
Proof.
  induction s as [|a s IH]; [done|]. simpl.
  destruct (trimRight s); [|discriminate].
  destruct (isAsciiSpace a); [intros _; by apply IH|discriminate].
Qed.

Lemma trimSpace_empty (s : string) : trimSpace s = EmptyString -> blank s = true.
Proof.
  unfold trimSpace. intros Hr. apply trimRight_empty in Hr.
  destruct (trimLeft s) as [|a t] eqn:E; [by apply trimLeft_empty|].
  apply trimLeft_head in E. simpl in Hr. by rewrite E in Hr.
Qed.

Lemma lowerByte_space (a : ascii) : isAsciiSpace a = true -> lowerByte a = a.
Proof.
  destruct a as [[] [] [] [] [] [] [] []]; vm_compute; intros Hs;
    first [reflexivity|discriminate Hs].
Qed.

Lemma blank_lower (s : string) : blank s = true -> blank (mapBytes lowerByte s) = true.
Proof.
  induction s as [|a s IH]; [done|]. simpl.
  intros Hb. apply andb_prop in Hb as [Ha Hs].
  by rewrite (lowerByte_space a Ha), Ha, IH.
Qed.

Lemma blank_Contains (s : string) (c : ascii) (p : string) :
  blank s = true -> isAsciiSpace c = false -> Contains s (String c p) = false.
Proof.
  intros Hb Hc. induction s as [|a s IH]; [reflexivity|].
  simpl in Hb. apply andb_prop in Hb as [Ha Hs].
  cbn [Contains HasPrefix].
  destruct (Ascii.eqb a c) eqn:E; [apply Ascii.eqb_eq in E; congruence|].
  by apply IH.
Qed.

(** With the byte-wise [ToLower] and [TrimSpace], a message that holds one
    of the four phrases is not blank: the seventh test of [Handle] never
    stops it. *)
Lemma noisy_not_blank (msg : string) :
  isContextError (strs := ascii_strings) msg = true ->
  String.eqb (TrimSpace (StringsPkg := ascii_strings) msg) EmptyString = false.
Proof.
  intros Hnoisy. apply String.eqb_neq. intros Hempty.
  apply trimSpace_empty, blank_lower in Hempty.
  unfold isContextError, contextErrors in Hnoisy. cbn [existsb ToLower ascii_strings] in Hnoisy.
  rewrite !(blank_Contains _ _ _ Hempty) in Hnoisy by reflexivity.
  discriminate Hnoisy.
Qed.

Section Claim.
Context {H S : Type} `{Handler H S} {strs : StringsPkg}.

(** A record that reaches the duplicate rule and is found to be a duplicate
    is dropped: the wrapped handler is not called and [Handle] returns
    [nil]. *)
Lemma Handle_duplicate (h : SmartFilterHandler H) (now : Time) (r : Record_)
    (st : S * Store) (fs : Store) :
  stoppedEarly h r = false ->
  isDuplicateContextError h now (Message r) (snd st) = (true, fs) ->
  SmartFilter.Handle_ h now r st = ((fst st, fs), None).
Proof.
  unfold stoppedEarly, SmartFilter.Handle_. intros Hearly Hdup.
  repeat (apply orb_false_elim in Hearly as [Hearly ?]).
  rewrite Hearly.
  repeat match goal with E : _ = false |- _ => rewrite E; clear E end.
  by rewrite Hdup.
Qed.

(** A record that reaches the duplicate rule, is not a duplicate and is not
    blank goes to the wrapped handler, whose result [Handle] returns. *)
Lemma Handle_fresh (h : SmartFilterHandler H) (now : Time) (r : Record_)
    (st : S * Store) (fs : Store) :
  stoppedEarly h r = false ->
  String.eqb (TrimSpace (Message r)) EmptyString = false ->
  isDuplicateContextError h now (Message r) (snd st) = (false, fs) ->
  SmartFilter.Handle_ h now r st =
    ((fst (Handle (handler h) now r (fst st)), fs),
     snd (Handle (handler h) now r (fst st))).
Proof.
  intros Hearly Hblank Hdup. rewrite Handle_forwards.
  - by rewrite Hdup.
  - unfold rejected. by rewrite Hearly, Hdup, Hblank.
Qed.

(** C1, amended. A record whose message holds one of the four phrases and
    is not blank, and which passes the tests of [Handle] that come before
    the duplicate rule (the level gate, the fixed patterns, the health-check
    paths); a window of five minutes; no entry for the message in the map.
    The call of [Handle] at [T] passes the record to the wrapped handler,
    returns what the wrapped handler returns and records [T].  The call
    with the same record at [T + 1min] returns [nil] without calling the
    wrapped handler and leaves the timestamp [T].  The call with the same
    record at [T + 6min] passes it to the wrapped handler again and records
    [T + 6min]. *)
Theorem Handle_three_calls (h : SmartFilterHandler H) (r : Record_) (T : Time)
    (s : S) (st : Store) :
  isContextError (Message r) = true ->
  errorWindow h = (5 * Minute)%Z ->
  stoppedEarly h r = false ->
  String.eqb (TrimSpace (Message r)) EmptyString = false ->
  tracker st (errorTracker h) !! Message r = None ->
  let first := Handle (handler h) T r s in
  let third := Handle (handler h) (T + 6 * Minute) r (fst first) in
  exists st1 st2 st3,
    SmartFilter.Handle_ h T r (s, st) = ((fst first, st1), snd first)
    /\ tracker st1 (errorTracker h) !! Message r = Some T
    /\ SmartFilter.Handle_ h (T + 1 * Minute) r (fst first, st1)
       = ((fst first, st2), None)
    /\ tracker st2 (errorTracker h) !! Message r = Some T
    /\ SmartFilter.Handle_ h (T + 6 * Minute) r (fst first, st2)
       = ((fst third, st3), snd third)
    /\ tracker st3 (errorTracker h) !! Message r = Some (T + 6 * Minute)%Z.
Proof.
  intros Hnoisy Hwin Hearly Hblank Hnone. cbv zeta.
  destruct (dedup_three_calls h (Message r) T st Hnoisy Hwin Hnone)
    as (st1 & st2 & st3 & E1 & L1 & E2 & L2 & E3 & L3).
  exists st1, st2, st3.
  split; [by apply Handle_fresh|]. split; [exact L1|].
  split; [by apply Handle_duplicate|]. split; [exact L2|].
  split; [by apply Handle_fresh|exact L3].
Qed.

End Claim.

(** C1 on the scenario of the specification: the record
    [connection reset by peer] at level [error], through the handler
    [createLogger] builds.  The wrapped handler has received the record once
    after the first two calls and twice after the third. *)
Lemma Handle_three_calls_witness :
  let r := connectionReset 0 in
  exists st1 st2 st3,
    SmartFilter.Handle_ filter0 0 r (@nil Record_, store0) = (([r], st1), None)
    /\ tracker st1 (errorTracker filter0) !! Message r = Some 0%Z
    /\ SmartFilter.Handle_ filter0 (0 + 1 * Minute) r ([r], st1) = (([r], st2), None)
    /\ tracker st2 (errorTracker filter0) !! Message r = Some 0%Z
    /\ SmartFilter.Handle_ filter0 (0 + 6 * Minute) r ([r], st2) = (([r; r], st3), None)
    /\ tracker st3 (errorTracker filter0) !! Message r = Some (0 + 6 * Minute)%Z.
Proof.
  cbv zeta.
  refine (Handle_three_calls (strs := ascii_strings) filter0 (connectionReset 0) 0
            (@nil Record_) store0 _ _ _ _ _).
  - vm_compute. reflexivity.
  - reflexivity.
  - vm_compute. reflexivity.
  - vm_compute. reflexivity.
  - vm_compute. reflexivity.
Defined.

End DedupClaim.

(** ** The fan-out handler *)

Module MultiProperties.
Import Slog Multi.

Section Dispatch.
Context {M S : Type} `{Handler M S}.

(** When every report returns and adds no call, the loop ends and has
    called each enabled member once, in order, with a clone of the record. *)
Lemma dispatch_returns (report : error -> MState S -> option (MState S))
    (handlers : list M) (now : Time) (r : Record_) :
  (forall e st, exists st', report e st = Some st' /\ calls st' = calls st) ->
  forall (i : nat) (st : MState S),
  exists st', dispatch report i handlers now r st = Some st'
    /\ calls st' = (calls st ++ deliveries i handlers r)%list.
Proof.
  intros Hrep. induction handlers as [|handler rest IH]; intros i st; simpl.
  - exists st. by rewrite app_nil_r.
  - destruct (Enabled handler (Level_ r)); simpl.
    + destruct (Handle handler now (Clone r) (inner st)) as [s' [e|]].
      * destruct (Hrep e {| inner := s'; calls := (calls st ++ [(i, Clone r)])%list |})
          as (st2 & -> & Hc).
        destruct (IH (Datatypes.S i) st2) as (st' & -> & Hc').
        exists st'. split; [reflexivity|]. rewrite Hc', Hc. simpl.
        by rewrite <- app_assoc.
      * destruct (IH (Datatypes.S i)
                    {| inner := s'; calls := (calls st ++ [(i, Clone r)])%list |})
          as (st' & -> & Hc').
        exists st'. split; [reflexivity|]. rewrite Hc'. simpl.
        by rewrite <- app_assoc.
    + apply IH.
Qed.

(** The default logger is not a logger over a fan-out handler. *)
Definition reportsElsewhere (dflt : DefaultLogger M) : Prop :=
  match dflt with
  | Initial => True
  | Installed (Single _) => True
  | Installed (Fanout _) => False
  end.

(** With such a default logger [Handle] returns nil, whatever the members
    return, and every enabled member has been given the record. *)
Lemma Handle_returns_nil (dflt : DefaultLogger M) (handlers : list M) (fuel : nat)
    (now : Time) (r : Record_) (st : MState S) :
  reportsElsewhere dflt ->
  exists st', Multi.Handle_ (Datatypes.S fuel) dflt handlers now r st = Some (st', None)
    /\ calls st' = (calls st ++ deliveries 0 handlers r)%list.
Proof.
  intros Hd. simpl.
  destruct (dispatch_returns (loggerError (Multi.Handle_ fuel dflt) dflt now)
              handlers now r) with (i := O) (st := st) as (st' & -> & Hc).
  - intros e st0. destruct dflt as [|[m|hs]]; simpl in *; [| |contradiction].
    + by exists st0.
    + destruct (Enabled m LevelError); eexists; split; reflexivity.
  - by exists st'.
Qed.

(** The default logger is the logger over this fan-out handler, and some
    member, enabled for the level of the record and for the error level,
    fails on every record: no amount of fuel lets [Handle] return. *)
Lemma Handle_never_returns (handlers : list M) (now : Time) :
  (exists before bad after, handlers = (before ++ bad :: after)%list
     /\ (forall level, (LevelInfo <= level)%Z -> Enabled bad level = true)
     /\ (forall t r s, exists s' e, Handle bad t r s = (s', Some e))
     /\ (forall m t r s, m ∈ before -> snd (Handle m t r s) = None)) ->
  forall (fuel : nat) (r : Record_) (st : MState S),
    (LevelInfo <= Level_ r)%Z ->
    Multi.Handle_ fuel (Installed (Fanout handlers)) handlers now r st = None.
Proof.
  intros (before & bad & after & -> & Hen & Hfail & Hok).
  induction fuel as [|fuel IH]; intros r st Hlvl; [reflexivity|].
  simpl.
  assert (Hany : Multi.Enabled_ (before ++ bad :: after)%list LevelError = true).
  { unfold Multi.Enabled_. apply existsb_exists. exists bad. split.
    - apply in_or_app. right. by left.
    - apply Hen. unfold LevelInfo, LevelError. lia. }
  assert (Hloop : forall pre i st0, (forall m, m ∈ pre -> m ∈ before) ->
            dispatch (loggerError
                        (Multi.Handle_ fuel (Installed (Fanout (before ++ bad :: after)%list)))
                        (Installed (Fanout (before ++ bad :: after)%list)) now)
                     i (pre ++ bad :: after)%list now r st0 = None).
  { induction pre as [|m pre IHpre]; intros i st0 Hsub; simpl.
    - rewrite (Hen _ Hlvl).
      destruct (Hfail now (Clone r) (inner st0)) as (s' & e & ->).
      rewrite Hany. rewrite IH; [reflexivity|]. simpl. unfold LevelInfo, LevelError. lia.
    - destruct (Enabled m (Level_ r)).
      + pose proof (Hok m now (Clone r) (inner st0) (Hsub m ltac:(left))) as Hnone.
        destruct (Handle m now (Clone r) (inner st0)) as [s' e]; simpl in Hnone. subst e.
        apply IHpre. intros m' Hm'. apply Hsub. by right.
      + apply IHpre. intros m' Hm'. apply Hsub. by right. }
  rewrite Hloop; [reflexivity|auto].
Qed.

End Dispatch.

(** C5, as the library sets the handlers up.  [InitWithDefaults] installs
    the logger over the fan-out handler as the default logger; with a file
    sink whose writes fail, [MultiHandler.Handle] does not return nil: it
    does not return, in either order of the two sinks. *)
Theorem failing_member_never_returns :
  forall (fuel : nat) (now : Time),
    Multi.Handle_ fuel defaultAfterInit sinks now (userLoggedIn now) noCalls = None
    /\ Multi.Handle_ fuel defaultFailingFirst sinksFailingFirst now (userLoggedIn now) noCalls
       = None.
Proof.
  intros fuel now. split.
  - apply Handle_never_returns; [|vm_compute; discriminate].
    exists [console], failingFile, []. repeat split.
    + intros level Hl. unfold LevelInfo in Hl. simpl. unfold Probe.Enabled_. simpl.
      apply Z.leb_le. exact Hl.
    + intros t r s. eexists _, _. reflexivity.
    + intros m t r s Hm. apply list_elem_of_singleton in Hm as ->. reflexivity.
  - apply Handle_never_returns; [|vm_compute; discriminate].
    exists [], failingFile, [console]. repeat split.
    + intros level Hl. unfold LevelInfo in Hl. simpl. unfold Probe.Enabled_. simpl.
      apply Z.leb_le. exact Hl.
    + intros t r s. eexists _, _. reflexivity.
    + intros m t r s Hm. by apply not_elem_of_nil in Hm.
Qed.

(** With Go's initial default logger the same sinks behave as the claim
    says: nil is returned and both sinks have been given the record. *)
Lemma failing_member_initial_default (fuel : nat) (now : Time) :
  exists st',
    Multi.Handle_ (Datatypes.S fuel) Initial sinksFailingFirst now (userLoggedIn now) noCalls
    = Some (st', None)
    /\ calls st' = [(0%nat, userLoggedIn now); (1%nat, userLoggedIn now)].
Proof.
  destruct (Handle_returns_nil (M := Probe.Probe) Initial sinksFailingFirst fuel now
              (userLoggedIn now) noCalls I) as (st' & E & Hc).
  exists st'. split; [exact E|]. rewrite Hc. reflexivity.
Qed.

End MultiProperties.

(** ** The request middleware *)

Module MiddlewareProperties.
Import Strings Slog Middleware.

Lemma getLogLevelForStatus_cases (status : Z) :
  ((500 <= status)%Z /\ getLogLevelForStatus status = LevelError)
  \/ ((400 <= status <= 499)%Z /\ getLogLevelForStatus status = LevelWarn)
  \/ ((status < 400)%Z /\ getLogLevelForStatus status = LevelInfo).
Proof.
  unfold getLogLevelForStatus.
  destruct (500 <=? status)%Z eqn:E5; [left; split; [lia|reflexivity]|].
  destruct (400 <=? status)%Z eqn:E4; [right; left; split; [lia|reflexivity]|].
  right; right. split; [lia|]. by destruct (300 <=? status)%Z.
Qed.

Example status_201 : getLogLevelForStatus 201 = LevelInfo.
Proof. reflexivity. Qed.
Example status_404 : getLogLevelForStatus 404 = LevelWarn.
Proof. reflexivity. Qed.
Example status_503 : getLogLevelForStatus 503 = LevelError.
Proof. reflexivity. Qed.

(** C6, as stated, fails: [/healthz] is not one of the configured skip
    paths, and the middleware logs nothing for it. *)
Lemma prefix_of_skip_path_not_logged :
  (Path healthz ∉ SkipPaths DefaultGinMiddlewareConfig)
  /\ GinMiddlewareWithConfig (strs := ascii_strings) sameText showMap showDuration
       DefaultGinMiddlewareConfig healthz (outcome 200) = Some [].
Proof.
  split; [|reflexivity].
  intros Hin. unfold DefaultGinMiddlewareConfig in Hin; simpl in Hin.
  repeat (apply elem_of_cons in Hin as [Hin|Hin]; [discriminate Hin|]).
  by apply not_elem_of_nil in Hin.
Qed.

Section Claims.
Context {strs : StringsPkg}.
Variable formatJSONBody : string -> string.
Variable sprintMap : list (string * string) -> string.
Variable durationString : Duration -> string.

Lemma skipped_false (cfg : GinMiddlewareConfig) (path : string) :
  (forall p, p ∈ SkipPaths cfg -> HasPrefix path p = false) -> skipped cfg path = false.
Proof.
  intros Hno. unfold skipped. apply not_true_iff_false. intros Hex.
  apply existsb_exists in Hex as (p & Hin & Hp).
  apply list_elem_of_In in Hin. rewrite (Hno p Hin) in Hp. discriminate.
Qed.

Lemma elem_of_grow {A : Type} (x y : A) (c : bool) (l : list A) :
  x ∈ l -> x ∈ (if c then (l ++ [y])%list else l).
Proof. intros Hx. destruct c; [apply elem_of_app; by left|done]. Qed.

(** With a limit that is not negative [prepareBodyForLogging] returns. *)
Lemma prepareBodyForLogging_returns (bodyBytes : string) (maxSize : Z) :
  (0 <= maxSize)%Z ->
  exists bodyToLog, prepareBodyForLogging formatJSONBody bodyBytes maxSize = Some bodyToLog.
Proof.
  intros Hpos. unfold prepareBodyForLogging.
  destruct (String.length bodyBytes =? 0)%nat; [by eexists|].
  destruct (maxSize <? 0)%Z eqn:En; [apply Z.ltb_lt in En; lia|].
  destruct (maxSize <? len bodyBytes)%Z;
    match goal with |- context [HasPrefix ?t "{" || HasPrefix ?t "["] =>
      destruct (HasPrefix t "{" || HasPrefix t "[") end; by eexists.
Qed.

(** With a negative limit it panics on every body that is not empty. *)
Lemma prepareBodyForLogging_panics (bodyBytes : string) (maxSize : Z) :
  (maxSize < 0)%Z -> bodyBytes ≠ EmptyString ->
  prepareBodyForLogging formatJSONBody bodyBytes maxSize = None.
Proof.
  intros Hneg Hbody. unfold prepareBodyForLogging, len.
  destruct bodyBytes as [|a rest]; [done|]. cbn [String.length Nat.eqb].
  destruct (maxSize <? Z.of_nat (S (String.length rest)))%Z eqn:E;
    [|apply Z.ltb_ge in E; lia].
  destruct (maxSize <? 0)%Z eqn:En; [reflexivity|apply Z.ltb_ge in En; lia].
Qed.

(** For a limit [MaxBodySize] that is not negative and a request whose path
    begins with none of the configured skip paths, the middleware makes
    exactly one log call; the call carries the status as an attribute and
    its level is [error] from 500 on, [warn] from 400 to 499, [info] below
    400. *)
Theorem one_call_per_logged_request (cfg : GinMiddlewareConfig) (req : Request)
    (out : Outcome) :
  (0 <= MaxBodySize cfg)%Z ->
  (forall p, p ∈ SkipPaths cfg -> HasPrefix (Path req) p = false) ->
  exists call,
    GinMiddlewareWithConfig formatJSONBody sprintMap durationString cfg req out
      = Some [call]
    /\ call_message call = "HTTP Request"
    /\ ("status", Int64Value (Status out)) ∈ call_attrs call
    /\ call_level call = getLogLevelForStatus (Status out)
    /\ (((500 <= Status out)%Z /\ call_level call = LevelError)
        \/ ((400 <= Status out <= 499)%Z /\ call_level call = LevelWarn)
        \/ ((Status out < 400)%Z /\ call_level call = LevelInfo)).
Proof.
  intros Hpos Hno. unfold GinMiddlewareWithConfig. rewrite (skipped_false _ _ Hno).
  cbv zeta.
  set (bodyBytes := if LogBody cfg && shouldLogRequestBody (Method req) (ContentType req)
                    then default EmptyString (Body req) else EmptyString).
  destruct (prepareBodyForLogging_returns bodyBytes (MaxBodySize cfg) Hpos) as [b ->].
  destruct (LogBody cfg && (0 <? String.length bodyBytes)%nat
            && ((400 <=? Status out)%Z || DebugEnabled out));
    (eexists; split; [reflexivity|]; cbn [call_attrs call_message call_level];
     split; [reflexivity|]; split;
     [ do 2 apply elem_of_grow; try (apply elem_of_app; left);
       (destruct (LogHeaders cfg && _); [apply elem_of_grow|]);
       (destruct (CacheStatus out); [apply elem_of_app; left|]);
       apply elem_of_grow;
       do 3 (apply elem_of_cons; right); apply elem_of_cons; by left
     | split; [reflexivity|]; apply getLogLevelForStatus_cases ]).
Qed.

(** A negative limit: a failed request with a body makes the middleware
    panic before it logs, so no call is made. *)
Lemma negative_limit_no_call (cfg : GinMiddlewareConfig) (req : Request)
    (out : Outcome) (body : string) :
  (MaxBodySize cfg < 0)%Z ->
  (forall p, p ∈ SkipPaths cfg -> HasPrefix (Path req) p = false) ->
  LogBody cfg = true ->
  shouldLogRequestBody (Method req) (ContentType req) = true ->
  Body req = Some body -> body ≠ EmptyString ->
  (400 <= Status out)%Z ->
  GinMiddlewareWithConfig formatJSONBody sprintMap durationString cfg req out = None.
Proof.
  intros Hneg Hno Hlog Hmethod Hbody Hsome Hfail.
  unfold GinMiddlewareWithConfig. rewrite (skipped_false _ _ Hno).
  cbv zeta. rewrite Hlog, Hmethod, Hbody. cbn [andb default from_option id].
  rewrite (prepareBodyForLogging_panics body (MaxBodySize cfg) Hneg Hsome).
  assert (Hlen : (0 <? String.length body)%nat = true).
  { destruct body; [done|reflexivity]. }
  rewrite Hlen. apply Z.leb_le in Hfail. rewrite Hfail. reflexivity.
Qed.

End Claims.

(** On the scenario of the specification: [POST /api/v1/users] answered
    with 201 gives one call, at level [info], with [status=201]. *)
Lemma one_call_per_logged_request_witness :
  exists call,
    GinMiddlewareWithConfig (strs := ascii_strings) sameText showMap showDuration
      DefaultGinMiddlewareConfig createUser (outcome 201) = Some [call]
    /\ call_message call = "HTTP Request"
    /\ ("status", Int64Value (Status (outcome 201))) ∈ call_attrs call
    /\ call_level call = getLogLevelForStatus (Status (outcome 201))
    /\ (((500 <= Status (outcome 201))%Z /\ call_level call = LevelError)
        \/ ((400 <= Status (outcome 201) <= 499)%Z /\ call_level call = LevelWarn)
        \/ ((Status (outcome 201) < 400)%Z /\ call_level call = LevelInfo)).
Proof.
  apply (one_call_per_logged_request (strs := ascii_strings) sameText showMap showDuration
           DefaultGinMiddlewareConfig createUser (outcome 201)).
  { vm_compute. discriminate. }
  intros p Hin. unfold DefaultGinMiddlewareConfig in Hin; simpl in Hin.
  repeat (apply elem_of_cons in Hin as [->|Hin]; [reflexivity|]).
  by apply not_elem_of_nil in Hin.
Defined.

(** [max_body_size: -1]: [POST /api/v1/users] answered with 500 is not
    logged at all. *)
Example negative_limit_no_call_example :
  GinMiddlewareWithConfig (strs := ascii_strings) sameText showMap showDuration
    negativeBodyLimit createUser (outcome 500) = None.
Proof. reflexivity. Qed.

End MiddlewareProperties.

(** ** The privacy helpers *)

Module UtilsProperties.
Import Strings Config Utils.

(** C7. With email masking switched off in the loaded configuration, as in
    the default configuration, [MaskEmail] returns every input as it is; with
    it switched on, [test@example.com] becomes [te**@example.com]. *)
Theorem MaskEmail_by_toggle (cfg : Config) (email : string) :
  (EnableEmailMask (privacy cfg) = false -> MaskEmail (Some cfg) email = email)
  /\ (EnableEmailMask (privacy cfg) = true ->
      MaskEmail (Some cfg) "test@example.com" = "te**@example.com")
  /\ EnableEmailMask (privacy defaults) = false.
Proof.
  split; [|split; [|reflexivity]].
  - intros Hoff. unfold MaskEmail, switchedOff. rewrite Hoff. simpl.
    destruct (String.eqb_spec email EmptyString) as [->|]; reflexivity.
  - intros Hon. unfold MaskEmail, switchedOff. rewrite Hon. reflexivity.
Qed.

Lemma MaskEmail_by_toggle_witness :
  MaskEmail (Some defaults) "a@b.com" = "a@b.com"
  /\ MaskEmail (Some maskingOn) "test@example.com" = "te**@example.com".
Proof.
  split.
  - apply (MaskEmail_by_toggle defaults "a@b.com"). reflexivity.
  - apply (MaskEmail_by_toggle maskingOn "a@b.com"). reflexivity.
Defined.

(** C10. While no configuration is loaded, each of the three helpers gives
    the result it gives under a configuration with its toggle switched on,
    for every input; the toggles are off in the default configuration, under
    which the inputs of the package's tests come back unchanged, while
    without a configuration they are masked and sanitized as the tests
    expect. *)
Theorem nil_config_behaves_as_enabled (cfg : Config) (s : string) :
  (EnableEmailMask (privacy cfg) = true -> MaskEmail None s = MaskEmail (Some cfg) s)
  /\ (EnablePhoneMask (privacy cfg) = true -> MaskPhone None s = MaskPhone (Some cfg) s)
  /\ (EnableInputSanitize (privacy cfg) = true ->
      SanitizeUserInput None s = SanitizeUserInput (Some cfg) s)
  /\ privacy defaults = {| EnableEmailMask := false; EnablePhoneMask := false;
                           EnableInputSanitize := false |}
  /\ MaskEmail None "test@example.com" = "te**@example.com"
  /\ MaskEmail (Some defaults) "test@example.com" = "test@example.com"
  /\ MaskPhone None "13812345678" = "138****5678"
  /\ MaskPhone (Some defaults) "13812345678" = "13812345678"
  /\ SanitizeUserInput None ("text" ++ lf ++ "with") = "text" ++ backslash "n" ++ "with"
  /\ SanitizeUserInput (Some defaults) ("text" ++ lf ++ "with") = "text" ++ lf ++ "with".
Proof.
  split; [|split; [|split; [|repeat split]]].
  - intros Hon. unfold MaskEmail, switchedOff. by rewrite Hon.
  - intros Hon. unfold MaskPhone, switchedOff. by rewrite Hon.
  - intros Hon. unfold SanitizeUserInput, switchedOff. by rewrite Hon.
Qed.

Lemma nil_config_behaves_as_enabled_witness :
  MaskEmail None "very.long.email@example.com"
    = MaskEmail (Some maskingOn) "very.long.email@example.com"
  /\ MaskPhone None "+8613812345678" = MaskPhone (Some maskingOn) "+8613812345678"
  /\ SanitizeUserInput None "normal text" = SanitizeUserInput (Some maskingOn) "normal text".
Proof.
  split; [|split].
  - apply (nil_config_behaves_as_enabled maskingOn "very.long.email@example.com").
    reflexivity.
  - apply (nil_config_behaves_as_enabled maskingOn "+8613812345678"). reflexivity.
  - apply (nil_config_behaves_as_enabled maskingOn "normal text"). reflexivity.
Defined.

(** The helpers leave some inputs as they are even when they mask: a user
    name of at most two bytes, a text without control characters. *)
Example masked_yet_unchanged :
  MaskEmail None "a@b.com" = "a@b.com"
  /\ SanitizeUserInput None "normal text" = "normal text".
Proof. split; reflexivity. Qed.

End UtilsProperties.

(** ** The console handler *)

Module ColorProperties.
Import Slog Color Highlight ColorHandler.

Section Claims.
Context {painter : Painter}.
Variable formatTime : string -> Time -> string.
Variable rangeOrder : list (string * Attribute).

(** C8. [WithAttrs] and [WithGroup] return the handler they are called on
    and change nothing; what the returned handler writes for a record is what
    the handler writes, whatever the attributes and the group name were. *)
Theorem WithAttrs_WithGroup_same_handler (h : ColorHandler) (attrs : list Attr)
    (name : string) (st st' : State) (now : Time) (r : Record_) :
  ColorHandler.WithAttrs_ h attrs st = (h, st)
  /\ ColorHandler.WithGroup_ h name st = (h, st)
  /\ ColorHandler.Handle_ formatTime rangeOrder
       (fst (ColorHandler.WithAttrs_ h attrs st)) now r st'
     = ColorHandler.Handle_ formatTime rangeOrder h now r st'
  /\ ColorHandler.Handle_ formatTime rangeOrder
       (fst (ColorHandler.WithGroup_ h name st)) now r st'
     = ColorHandler.Handle_ formatTime rangeOrder h now r st'.
Proof. repeat split. Qed.

End Claims.

End ColorProperties.

(** ** Highlighting *)

Module HighlightProperties.
Import Regexp RegexpReplace Color Highlight.

Lemma ReplaceAllStringFunc_no_match (r : regex) (src : string) (repl : string -> string) :
  MatchString r src = false -> ReplaceAllStringFunc r src repl = src.
Proof.
  unfold MatchString, ReplaceAllStringFunc. simpl.
  destruct (findFrom r None src) as [[[pre m] post]|]; [discriminate|reflexivity].
Qed.

Section Claims.
Context {painter : Painter}.

Lemma keywords_no_match (order : list (string * Attribute)) (msg : string) :
  (forall kc, kc ∈ order -> MatchString (keywordRegex (fst kc)) msg = false) ->
  fold_left highlightKeyword order msg = msg.
Proof.
  induction order as [|kc order IH]; intros Hno; simpl; [reflexivity|].
  unfold highlightKeyword at 2.
  rewrite ReplaceAllStringFunc_no_match by (apply Hno; by left).
  apply IH. intros kc' Hin. apply Hno. by right.
Qed.

(** C9. A message in which no keyword of the dictionary, no number, no URL
    and no IPv4 address is found comes out of [colorize] as it went in, in
    whatever order the keywords are tried; with highlighting off every
    message does. *)
Theorem colorize_keeps_plain_text (order : list (string * Attribute)) (msg other : string) :
  order ≡ₚ keywordColors ->
  (forall kc, kc ∈ keywordColors -> MatchString (keywordRegex (fst kc)) msg = false) ->
  MatchString numericRegex msg = false ->
  MatchString urlRegex msg = false ->
  MatchString ipRegex msg = false ->
  colorize order msg true = msg /\ colorize order other false = other.
Proof.
  intros Hperm Hkw Hnum Hurl Hip. split; [|reflexivity].
  unfold colorize. cbn [negb]. cbv zeta.
  rewrite keywords_no_match.
  - rewrite (ReplaceAllStringFunc_no_match numericRegex) by assumption.
    rewrite (ReplaceAllStringFunc_no_match urlRegex) by assumption.
    by rewrite (ReplaceAllStringFunc_no_match ipRegex).
  - intros kc Hin. apply Hkw. by rewrite <- Hperm.
Qed.

End Claims.

Lemma colorize_keeps_plain_text_witness :
  colorize (painter := sgr) keywordColors "hello world, nothing to see" true
    = "hello world, nothing to see"
  /\ colorize (painter := sgr) keywordColors "GET /users 200" false = "GET /users 200".
Proof.
  apply (colorize_keeps_plain_text (painter := sgr) keywordColors
           "hello world, nothing to see" "GET /users 200").
  - reflexivity.
  - intros kc Hin. apply list_elem_of_In in Hin.
    assert (Hall : forallb (fun kc => negb (MatchString (keywordRegex (fst kc))
                                            "hello world, nothing to see"))
                     keywordColors = true) by (vm_compute; reflexivity).
    rewrite forallb_forall in Hall. apply negb_true_iff. by apply Hall.
  - vm_compute. reflexivity.
  - vm_compute. reflexivity.
  - vm_compute. reflexivity.
Defined.

(** With a match the text changes: highlighting is not the identity. *)
Example colorize_marks_matches :
  colorize (painter := sgr) keywordColors "GET /users 200" true
  = esc ++ "96mGET" ++ esc ++ "0m /users " ++ esc ++ "97;1m200" ++ esc ++ "0m".
Proof. vm_compute. reflexivity. Qed.

End HighlightProperties.

(** ** More on byte strings and the privacy helpers *)

Module StringFacts.
Import Strings Utils.

Lemma app_cons (x : ascii) (a b : string) : String x a ++ b = String x (a ++ b).
Proof. reflexivity. Qed.

Lemma app_nil_l (b : string) : EmptyString ++ b = b.
Proof. reflexivity. Qed.

Lemma length_app (a b : string) :
  String.length (a ++ b) = (String.length a + String.length b)%nat.
Proof.
  induction a as [|c a IH]; [reflexivity|]. rewrite app_cons. simpl. by rewrite IH.
Qed.

Lemma length_Repeat_byte (c : ascii) (n : nat) :
  String.length (Repeat (String c EmptyString) n) = n.
Proof.
  induction n as [|n IH]; [reflexivity|].
  change (Repeat (String c EmptyString) (Datatypes.S n))
    with (String c EmptyString ++ Repeat (String c EmptyString) n).
  rewrite length_app, IH. reflexivity.
Qed.

Lemma length_take (n : nat) (s : string) :
  String.length (take n s) = Nat.min n (String.length s).
Proof.
  revert s. induction n as [|n IH]; intros [|c s]; simpl; try reflexivity.
  by rewrite IH.
Qed.

Lemma length_drop (n : nat) (s : string) :
  String.length (drop n s) = (String.length s - n)%nat.
Proof.
  revert s. induction n as [|n IH]; intros [|c s]; simpl; try reflexivity.
  by rewrite IH.
Qed.

Lemma take_app_exact (a b : string) : take (String.length a) (a ++ b) = a.
Proof.
  induction a as [|c a IH]; [by destruct b|]. rewrite app_cons. simpl. by rewrite IH.
Qed.

Lemma drop_app_exact (a b : string) : drop (String.length a) (a ++ b) = b.
Proof. induction a as [|c a IH]; [reflexivity|]. rewrite app_cons. simpl. exact IH. Qed.

Lemma take_all (n : nat) (s : string) : (String.length s <= n)%nat -> take n s = s.
Proof.
  revert s. induction n as [|n IH]; intros [|c s] Hle; simpl in *; try reflexivity.
  - lia.
  - rewrite IH; [reflexivity|lia].
Qed.

Lemma app_assoc_string (a b c : string) : (a ++ b) ++ c = a ++ (b ++ c).
Proof. induction a as [|x a IH]; [reflexivity|]. rewrite !app_cons. by rewrite IH. Qed.

Lemma hasByte_app (c : ascii) (a b : string) :
  hasByte c (a ++ b) = hasByte c a || hasByte c b.
Proof.
  induction a as [|x a IH]; [reflexivity|]. rewrite app_cons. simpl. rewrite IH.
  by rewrite orb_assoc.
Qed.

Lemma hasByte_take (c : ascii) (n : nat) (s : string) :
  hasByte c s = false -> hasByte c (take n s) = false.
Proof.
  revert s. induction n as [|n IH]; intros [|x s] Hs; simpl in *; try reflexivity.
  apply orb_false_elim in Hs as [-> Hs]. simpl. by apply IH.
Qed.

Lemma hasByte_ReplaceByte_gone (c : ascii) (new s : string) :
  hasByte c new = false -> hasByte c (ReplaceByte c new s) = false.
Proof.
  intros Hnew. induction s as [|x s IH]; simpl; [reflexivity|].
  destruct (Ascii.eqb x c) eqn:E.
  - by rewrite hasByte_app, Hnew, IH.
  - simpl. by rewrite E, IH.
Qed.

Lemma hasByte_ReplaceByte_kept (c old : ascii) (new s : string) :
  hasByte c new = false -> hasByte c s = false ->
  hasByte c (ReplaceByte old new s) = false.
Proof.
  intros Hnew. induction s as [|x s IH]; simpl; intros Hs; [reflexivity|].
  apply orb_false_elim in Hs as [Hx Hs].
  destruct (Ascii.eqb x old).
  - by rewrite hasByte_app, Hnew, IH.
  - simpl. by rewrite Hx, IH.
Qed.

Lemma ReplaceByte_absent (old : ascii) (new s : string) :
  hasByte old s = false -> ReplaceByte old new s = s.
Proof.
  induction s as [|x s IH]; simpl; intros Hs; [reflexivity|].
  apply orb_false_elim in Hs as [-> Hs]. by rewrite IH.
Qed.

Lemma SplitByte_absent (c : ascii) (s : string) :
  hasByte c s = false -> SplitByte c s = [s].
Proof.
  induction s as [|x s IH]; simpl; intros Hs; [reflexivity|].
  apply orb_false_elim in Hs as [-> Hs]. by rewrite IH.
Qed.

Lemma SplitByte_first (c : ascii) (a rest : string) :
  hasByte c a = false ->
  SplitByte c (a ++ String c rest) = a :: SplitByte c rest.
Proof.
  induction a as [|x a IH]; intros Ha.
  - rewrite app_nil_l. simpl. by rewrite Ascii.eqb_refl.
  - rewrite app_cons. simpl in *. apply orb_false_elim in Ha as [-> Ha]. by rewrite IH.
Qed.

Lemma LastIndexByte_absent (c : ascii) (s : string) :
  hasByte c s = false -> LastIndexByte c s = None.
Proof.
  induction s as [|x s IH]; simpl; intros Hs; [reflexivity|].
  apply orb_false_elim in Hs as [-> Hs]. by rewrite IH.
Qed.

Lemma LastIndexByte_last (c : ascii) (a rest : string) :
  hasByte c rest = false ->
  LastIndexByte c (a ++ String c rest) = Some (String.length a).
Proof.
  intros Hrest. induction a as [|x a IH].
  - rewrite app_nil_l. simpl. by rewrite LastIndexByte_absent, Ascii.eqb_refl.
  - rewrite app_cons. simpl. by rewrite IH.
Qed.

Lemma HasPrefix_app (p s : string) : HasPrefix (p ++ s) p = true.
Proof.
  induction p as [|x p IH]; [by destruct s|]. rewrite app_cons. simpl.
  by rewrite Ascii.eqb_refl.
Qed.

Lemma HasPrefix_mapBytes (f : ascii -> ascii) (s p : string) :
  HasPrefix s p = true -> HasPrefix (mapBytes f s) (mapBytes f p) = true.
Proof.
  revert s. induction p as [|b p IH]; intros [|a s]; simpl; try done.
  destruct (Ascii.eqb_spec a b) as [->|]; [|discriminate].
  rewrite Ascii.eqb_refl. apply IH.
Qed.

End StringFacts.

Module UtilsExtra.
Import Strings Config Utils StringFacts.

(** [maskString] keeps the length of its input. *)
Theorem maskString_length (s : string) :
  String.length (maskString s) = String.length s.
Proof.
  unfold maskString.
  destruct (String.length s <=? 2)%nat eqn:E2.
  - apply length_Repeat_byte.
  - apply Nat.leb_gt in E2.
    destruct (String.length s <=? 4)%nat eqn:E4.
    + rewrite length_app, length_take, length_Repeat_byte. lia.
    + apply Nat.leb_gt in E4.
      rewrite !length_app, length_take, length_Repeat_byte, length_drop. lia.
Qed.

Lemma email_not_empty (u d : string) :
  String.eqb (u ++ String "@" d) EmptyString = false.
Proof. by destruct u. Qed.

(** For an address with one [@], when masking is not switched off, the
    domain comes back as it is; a user name of at most two bytes is shown,
    and of a longer one the first two bytes are shown, followed by as many
    stars as bytes are hidden, and by two stars at least. *)
Theorem MaskEmail_keeps_domain (g : option Config) (u d : string) :
  switchedOff g EnableEmailMask = false ->
  hasByte "@" u = false ->
  hasByte "@" d = false ->
  MaskEmail g (u ++ "@" ++ d)
  = (if (String.length u <=? 2)%nat then u
     else take 2 u ++ Repeat "*" (Nat.max 2 (String.length u - 2)))
    ++ "@" ++ d.
Proof.
  intros Hon Hu Hd. unfold MaskEmail.
  change (u ++ "@" ++ d) with (u ++ String "@" d).
  rewrite email_not_empty, Hon.
  rewrite SplitByte_first by assumption. rewrite SplitByte_absent by assumption.
  destruct (String.length u <=? 2)%nat eqn:E2; [reflexivity|].
  apply Nat.leb_gt in E2.
  destruct (String.length u <=? 4)%nat eqn:E4.
  - apply Nat.leb_le in E4.
    replace (Nat.max 2 (String.length u - 2)) with 2%nat by lia.
    by rewrite app_assoc_string.
  - apply Nat.leb_gt in E4.
    replace (Nat.max 2 (String.length u - 2)) with (String.length u - 2)%nat by lia.
    by rewrite !app_assoc_string.
Qed.

Lemma MaskEmail_keeps_domain_witness :
  MaskEmail None ("very.long.email" ++ "@" ++ "example.com")
  = (if (String.length "very.long.email" <=? 2)%nat then "very.long.email"
     else take 2 "very.long.email"
          ++ Repeat "*" (Nat.max 2 (String.length "very.long.email" - 2)))
    ++ "@" ++ "example.com".
Proof.
  apply (MaskEmail_keeps_domain None "very.long.email" "example.com"); reflexivity.
Defined.

Definition LF : ascii := ascii_of_nat 10.
Definition CR : ascii := ascii_of_nat 13.
Definition TAB : ascii := ascii_of_nat 9.

(** The text the three replacements of [SanitizeUserInput] produce. *)
Definition escaped (input : string) : string :=
  ReplaceByte TAB (backslash "t")
    (ReplaceByte CR (backslash "r") (ReplaceByte LF (backslash "n") input)).

Lemma escaped_clean (input : string) :
  hasByte LF (escaped input) = false
  /\ hasByte CR (escaped input) = false
  /\ hasByte TAB (escaped input) = false.
Proof.
  unfold escaped. repeat split.
  - apply hasByte_ReplaceByte_kept; [reflexivity|].
    apply hasByte_ReplaceByte_kept; [reflexivity|].
    by apply hasByte_ReplaceByte_gone.
  - apply hasByte_ReplaceByte_kept; [reflexivity|].
    by apply hasByte_ReplaceByte_gone.
  - by apply hasByte_ReplaceByte_gone.
Qed.

Lemma SanitizeUserInput_unfold (g : option Config) (input : string) :
  switchedOff g EnableInputSanitize = false ->
  SanitizeUserInput g input
  = if (1000 <? String.length (escaped input))%nat
    then take 1000 (escaped input) ++ "...(truncated)"
    else escaped input.
Proof. intros Hon. unfold SanitizeUserInput. by rewrite Hon. Qed.

Lemma SanitizeUserInput_clean (g : option Config) (input : string) :
  switchedOff g EnableInputSanitize = false ->
  hasByte LF (SanitizeUserInput g input) = false
  /\ hasByte CR (SanitizeUserInput g input) = false
  /\ hasByte TAB (SanitizeUserInput g input) = false.
Proof.
  intros Hon. rewrite SanitizeUserInput_unfold by assumption.
  destruct (escaped_clean input) as (Hlf & Hcr & Htab).
  destruct (1000 <? String.length (escaped input))%nat.
  - rewrite !hasByte_app, !hasByte_take by assumption.
    repeat split; reflexivity.
  - repeat split; assumption.
Qed.

(** When sanitizing is not switched off, the result holds no line feed, no
    carriage return and no tab, and is at most 1014 bytes long. *)
Theorem SanitizeUserInput_result (g : option Config) (input : string) :
  switchedOff g EnableInputSanitize = false ->
  hasByte LF (SanitizeUserInput g input) = false
  /\ hasByte CR (SanitizeUserInput g input) = false
  /\ hasByte TAB (SanitizeUserInput g input) = false
  /\ (String.length (SanitizeUserInput g input) <= 1014)%nat.
Proof.
  intros Hon. rewrite SanitizeUserInput_unfold by assumption.
  destruct (escaped_clean input) as (Hlf & Hcr & Htab).
  destruct (1000 <? String.length (escaped input))%nat eqn:E.
  - rewrite !hasByte_app, !hasByte_take by assumption.
    repeat split; try reflexivity.
    rewrite length_app, length_take.
    change (String.length "...(truncated)") with 14%nat. lia.
  - apply Nat.ltb_ge in E. repeat split; try assumption. lia.
Qed.

Lemma SanitizeUserInput_result_witness :
  let input := "text" ++ lf ++ "with" in
  hasByte LF (SanitizeUserInput None input) = false
  /\ hasByte CR (SanitizeUserInput None input) = false
  /\ hasByte TAB (SanitizeUserInput None input) = false
  /\ (String.length (SanitizeUserInput None input) <= 1014)%nat.
Proof.
  cbv zeta. apply (SanitizeUserInput_result None ("text" ++ lf ++ "with")). reflexivity.
Defined.

Lemma escaped_fixed (s : string) :
  hasByte LF s = false -> hasByte CR s = false -> hasByte TAB s = false ->
  escaped s = s.
Proof.
  intros Hlf Hcr Htab. unfold escaped.
  rewrite (ReplaceByte_absent LF) by assumption.
  rewrite (ReplaceByte_absent CR) by assumption.
  by rewrite (ReplaceByte_absent TAB).
Qed.

(** Sanitizing twice gives what sanitizing once gives, whatever the
    configuration. *)
Theorem SanitizeUserInput_idempotent (g : option Config) (input : string) :
  SanitizeUserInput g (SanitizeUserInput g input) = SanitizeUserInput g input.
Proof.
  destruct (switchedOff g EnableInputSanitize) eqn:Hs.
  - unfold SanitizeUserInput. by rewrite Hs.
  - destruct (SanitizeUserInput_clean g input Hs) as (Hlf & Hcr & Htab).
    rewrite (SanitizeUserInput_unfold g (SanitizeUserInput g input)) by assumption.
    rewrite escaped_fixed by assumption.
    rewrite (SanitizeUserInput_unfold g input) by assumption.
    destruct (1000 <? String.length (escaped input))%nat eqn:E.
    + apply Nat.ltb_lt in E.
      assert (Hlen : String.length (take 1000 (escaped input)) = 1000%nat)
        by (rewrite length_take; lia).
      rewrite length_app, Hlen.
      change (String.length "...(truncated)") with 14%nat.
      change (1000 <? 1000 + 14)%nat with true. cbv iota.
      rewrite <- Hlen at 1. by rewrite take_app_exact.
    + by rewrite E.
Qed.

(** [TruncateString]: with a limit that is not negative the result is at most
    [maxLen] bytes long, and is the input when the input fits; with a negative
    limit the call panics. *)
Theorem TruncateString_bound (s : string) (maxLen : Z) :
  ((0 <= maxLen)%Z ->
   exists t, TruncateString s maxLen = Some t
     /\ (len t <= maxLen)%Z
     /\ ((len s <= maxLen)%Z -> t = s)
     /\ ((3 < maxLen < len s)%Z -> t = take (Z.to_nat (maxLen - 3)) s ++ "..."))
  /\ ((maxLen < 0)%Z -> TruncateString s maxLen = None).
Proof.
  unfold TruncateString, len. split.
  - intros Hpos.
    destruct (Z.of_nat (String.length s) <=? maxLen)%Z eqn:E.
    + apply Z.leb_le in E. exists s. repeat split; [lia|lia].
    + apply Z.leb_gt in E.
      destruct (maxLen <=? 3)%Z eqn:E3.
      * apply Z.leb_le in E3.
        destruct (maxLen <? 0)%Z eqn:E0; [apply Z.ltb_lt in E0; lia|].
        eexists. split; [reflexivity|]. rewrite length_Repeat_byte.
        repeat split; lia.
      * apply Z.leb_gt in E3.
        eexists. split; [reflexivity|].
        rewrite length_app, length_take.
        change (String.length "...") with 3%nat. repeat split; lia.
  - intros Hneg.
    destruct (Z.of_nat (String.length s) <=? maxLen)%Z eqn:E;
      [apply Z.leb_le in E; lia|].
    destruct (maxLen <=? 3)%Z eqn:E3; [|apply Z.leb_gt in E3; lia].
    destruct (maxLen <? 0)%Z eqn:E0; [reflexivity|apply Z.ltb_ge in E0; lia].
Qed.

Lemma TruncateString_bound_witness :
  (exists t, TruncateString "a long message" 10 = Some t
     /\ (len t <= 10)%Z
     /\ t = take (Z.to_nat (10 - 3)) "a long message" ++ "...")
  /\ TruncateString "a long message" (-1) = None.
Proof.
  destruct (TruncateString_bound "a long message" 10) as [Hpos _].
  destruct (TruncateString_bound "a long message" (-1)) as [_ Hneg].
  split.
  - destruct (Hpos ltac:(lia)) as (t & E & Hlen & _ & Hcut).
    exists t. split; [exact E|]. split; [exact Hlen|].
    apply Hcut. vm_compute. split; reflexivity.
  - apply Hneg. lia.
Defined.

(** A path the middleware skips under its default configuration is a
    health-check path for [IsHealthCheckPath]. *)
Theorem skipped_paths_are_health_paths (path : string) :
  Middleware.skipped Middleware.DefaultGinMiddlewareConfig path = true ->
  IsHealthCheckPath (strs := ascii_strings) path = true.
Proof.
  unfold Middleware.skipped, IsHealthCheckPath. simpl.
  intros Hskip.
  repeat (apply orb_prop in Hskip as [Hskip|Hskip]);
    try discriminate;
    apply (HasPrefix_mapBytes lowerByte) in Hskip;
    change (mapBytes lowerByte ?p) with p in Hskip at 2;
    cbn [mapBytes] in Hskip.
  all: repeat match goal with
       | |- (?a || ?b)%bool = true => apply orb_true_iff
       end.
  all: auto 20 using orb_true_intro.
Qed.

Lemma drop_scheme (scheme rest : string) :
  drop (String.length scheme) (scheme ++ rest) = rest.
Proof. apply drop_app_exact. Qed.

(** The host of a URL: for a host and a port without [/] and [:], the
    result is the host, with or without the scheme, the port and the path.
    [pathRest] is what follows the first [/] after the host. *)
Theorem ExtractDomainFromURL_host (host port pathRest : string) :
  hasByte "/" host = false -> hasByte ":" host = false ->
  hasByte "/" port = false -> hasByte ":" port = false ->
  ExtractDomainFromURL ("https://" ++ host ++ ":" ++ port ++ "/" ++ pathRest) = host
  /\ ExtractDomainFromURL ("http://" ++ host ++ "/" ++ pathRest) = host
  /\ ExtractDomainFromURL ("https://" ++ host ++ ":" ++ port) = host
  /\ ExtractDomainFromURL ("http://" ++ host) = host.
Proof.
  intros Hh1 Hh2 Hp1 Hp2. unfold ExtractDomainFromURL.
  assert (Hhp : hasByte "/" (host ++ String ":" port) = false).
  { rewrite hasByte_app, Hh1. simpl. exact Hp1. }
  repeat split.
  - rewrite HasPrefix_app.
    change 8%nat with (String.length "https://"). rewrite drop_scheme.
    change (host ++ ":" ++ port ++ "/" ++ pathRest)
      with (host ++ String ":" (port ++ String "/" pathRest)).
    rewrite <- (app_cons ":" port), <- app_assoc_string.
    rewrite SplitByte_first by exact Hhp.
    by rewrite LastIndexByte_last, take_app_exact.
  - change (HasPrefix ("http://" ++ host ++ "/" ++ pathRest) "https://") with false.
    cbv iota. rewrite HasPrefix_app.
    change 7%nat with (String.length "http://"). rewrite drop_scheme.
    change (host ++ "/" ++ pathRest) with (host ++ String "/" pathRest).
    rewrite SplitByte_first by assumption.
    by rewrite LastIndexByte_absent.
  - rewrite HasPrefix_app.
    change 8%nat with (String.length "https://"). rewrite drop_scheme.
    change (host ++ ":" ++ port) with (host ++ String ":" port).
    rewrite SplitByte_absent by exact Hhp.
    by rewrite LastIndexByte_last, take_app_exact.
  - change (HasPrefix ("http://" ++ host) "https://") with false.
    cbv iota. rewrite HasPrefix_app.
    change 7%nat with (String.length "http://"). rewrite drop_scheme.
    rewrite SplitByte_absent by assumption.
    by rewrite LastIndexByte_absent.
Qed.

Lemma ExtractDomainFromURL_host_witness :
  ExtractDomainFromURL ("https://" ++ "example.com" ++ ":" ++ "8443" ++ "/" ++ "a/b?c=d")
    = "example.com"
  /\ ExtractDomainFromURL ("http://" ++ "example.com" ++ "/" ++ "a/b?c=d") = "example.com"
  /\ ExtractDomainFromURL ("https://" ++ "example.com" ++ ":" ++ "8443") = "example.com"
  /\ ExtractDomainFromURL ("http://" ++ "example.com") = "example.com".
Proof.
  apply (ExtractDomainFromURL_host "example.com" "8443" "a/b?c=d"); reflexivity.
Defined.

(** [SliceContains] decides membership. *)
Theorem SliceContains_elem_of (slice : list string) (item : string) :
  SliceContains slice item = true <-> item ∈ slice.
Proof.
  unfold SliceContains. rewrite existsb_exists. split.
  - intros (x & Hin & Heq). apply String.eqb_eq in Heq as ->.
    by apply list_elem_of_In.
  - intros Hin. exists item. split; [by apply list_elem_of_In|apply String.eqb_refl].
Qed.

End UtilsExtra.

(** ** More on the filtering handler *)

Module FilterExtra.
Import Slog SmartFilter DedupProperties FilterProperties.

Section Extra.
Context {H S : Type} `{Handler H S} {strs : StringsPkg}.

(** A record stopped by the level gate, by one of the fixed patterns or by
    the health-check rule has no effect at all: the wrapped handler is not
    called, the dedup map is not touched, and nil is returned. *)
Theorem stopped_early_changes_nothing (h : SmartFilterHandler H) (now : Time)
    (r : Record_) (st : S * Store) :
  stoppedEarly h r = true -> SmartFilter.Handle_ h now r st = (st, None).
Proof.
  unfold stoppedEarly, SmartFilter.Handle_. intros Hstop.
  destruct (Level_ r <? minLevel h)%Z; [done|].
  destruct (ignoreGinDebug h && _); [done|].
  destruct (Regexp.MatchString (cookiePartitionRegex h) _); [done|].
  destruct (Regexp.MatchString (chromedpInternalRegex h) _); [done|].
  destruct (ignoreHealthCheck h && _); [done|discriminate].
Qed.

(** [Handle] either leaves the wrapped handler alone and returns nil, or
    calls it once with the record as it came and returns what it returns. *)
Theorem Handle_drops_or_forwards (h : SmartFilterHandler H) (now : Time)
    (r : Record_) (st : S * Store) :
  (rejected h now r (snd st) = true
   /\ fst (fst (SmartFilter.Handle_ h now r st)) = fst st
   /\ snd (SmartFilter.Handle_ h now r st) = None)
  \/ (rejected h now r (snd st) = false
      /\ fst (fst (SmartFilter.Handle_ h now r st)) = fst (Handle (handler h) now r (fst st))
      /\ snd (SmartFilter.Handle_ h now r st) = snd (Handle (handler h) now r (fst st))).
Proof.
  destruct (rejected h now r (snd st)) eqn:E.
  - left. split; [reflexivity|]. by apply Handle_rejects.
  - right. split; [reflexivity|]. by rewrite Handle_forwards.
Qed.

(** The rule keeps the entry of another message that is not older than the
    window, timestamp included. *)
Lemma dedup_keeps_recent (h : SmartFilterHandler H) (now t : Time) (msg k : string)
    (st : Store) :
  tracker st (errorTracker h) !! k = Some t ->
  (Sub now t <= errorWindow h)%Z ->
  k ≠ msg ->
  tracker (snd (shouldFilterDuplicateError h now msg st)) (errorTracker h) !! k = Some t.
Proof.
  intros Hk Hfresh Hne. unfold shouldFilterDuplicateError.
  set (purged := filter _ (tracker st (errorTracker h))).
  assert (Hp : purged !! k = Some t).
  { apply map_lookup_filter_Some. split; [done|]. simpl. lia. }
  destruct (purged !! msg) as [lastTime|];
    [destruct (Sub now lastTime <? errorWindow h)%Z|]; simpl;
    rewrite tracker_setTracker; rewrite ?lookup_insert_ne by done; done.
Qed.

(** One emission per message and window.  Once a context error has been let
    through at [T], every call of the rule with that message is filtered and
    the entry keeps the timestamp [T], whatever other messages are handled
    in between, as long as the calls come less than a window after [T]. *)
Theorem one_emission_per_window (h : SmartFilterHandler H) (msg : string) (T : Time)
    (calls : list (Time * string)) (st : Store) :
  isContextError msg = true ->
  tracker st (errorTracker h) !! msg = Some T ->
  (forall call, call ∈ calls -> (Sub (fst call) T < errorWindow h)%Z) ->
  tracker (snd (runDedup h calls st)) (errorTracker h) !! msg = Some T
  /\ forall i now, calls !! i = Some (now, msg) ->
       fst (runDedup h calls st) !! i = Some true.
Proof.
  intros Hnoisy. revert st.
  induction calls as [|[now m] calls IH]; intros st Hentry Hnear; simpl.
  - split; [exact Hentry|]. intros i now Hi. by rewrite lookup_nil in Hi.
  - assert (Hnow : (Sub now T < errorWindow h)%Z)
      by (apply (Hnear (now, m)); by left).
    assert (Hrest : forall call, call ∈ calls -> (Sub (fst call) T < errorWindow h)%Z)
      by (intros call Hin; apply Hnear; by right).
    destruct (isDuplicateContextError h now m st) as [dup st1] eqn:E1.
    assert (Hst1 : tracker st1 (errorTracker h) !! msg = Some T
                   /\ (m = msg -> dup = true)).
    { unfold isDuplicateContextError in E1.
      destruct (decide (m = msg)) as [->|Hne].
      - rewrite Hnoisy in E1.
        destruct (dedup_recent h now T msg st Hentry Hnow) as (st' & E' & L').
        rewrite E' in E1. injection E1 as <- <-. by split.
      - split; [|done].
        destruct (isContextError m).
        + replace st1 with (snd (shouldFilterDuplicateError h now m st))
            by (by rewrite E1).
          apply dedup_keeps_recent; [done|lia|done].
        + by injection E1 as _ <-. }
    destruct Hst1 as [Hst1 Hdup].
    destruct (runDedup h calls st1) as [dups st2] eqn:E2.
    destruct (IH st1 Hst1 Hrest) as [IHentry IHdups]. rewrite E2 in IHentry, IHdups.
    simpl in *. split; [exact IHentry|].
    intros [|i] now' Hi; simpl in *.
    + injection Hi as _ ->. by rewrite Hdup.
    + by apply (IHdups i now').
Qed.

(** Handlers whose structs hold different maps do not see each other's
    duplicates: the rule run through one leaves the map of the other as it
    is. *)
Lemma dedup_other_map (h other : SmartFilterHandler H) (now : Time) (msg : string)
    (st : Store) :
  errorTracker other ≠ errorTracker h ->
  tracker (snd (isDuplicateContextError h now msg st)) (errorTracker other)
  = tracker st (errorTracker other).
Proof.
  intros Hne. unfold isDuplicateContextError, shouldFilterDuplicateError.
  destruct (isContextError msg); [|reflexivity].
  destruct (filter _ (tracker st (errorTracker h)) !! msg) as [lastTime|];
    [destruct (Sub now lastTime <? errorWindow h)%Z|]; simpl;
    by rewrite tracker_setTracker_ne.
Qed.

(** Two handlers built by two calls of [NewSmartFilterHandler] hold
    different maps, so that a message let through by one is not a duplicate
    for the other. *)
Theorem separate_handlers_separate_dedup (inner1 inner2 : H) (c1 c2 : FilterConfig)
    (st : Store) (now : Time) (msg : string) :
  let h1 := fst (NewSmartFilterHandler inner1 c1 st) in
  let st1 := snd (NewSmartFilterHandler inner1 c1 st) in
  let h2 := fst (NewSmartFilterHandler inner2 c2 st1) in
  let st2 := snd (NewSmartFilterHandler inner2 c2 st1) in
  errorTracker h1 ≠ errorTracker h2
  /\ tracker st2 (errorTracker h2) = ∅
  /\ tracker (snd (isDuplicateContextError h1 now msg st2)) (errorTracker h2) = ∅
  /\ fst (isDuplicateContextError h2 now msg
            (snd (isDuplicateContextError h1 now msg st2))) = false.
Proof.
  cbv zeta.
  assert (Hne : errorTracker (fst (NewSmartFilterHandler inner1 c1 st))
                ≠ errorTracker (fst (NewSmartFilterHandler inner2 c2
                                       (snd (NewSmartFilterHandler inner1 c1 st)))))
    by (simpl; lia).
  assert (Hempty : tracker (snd (NewSmartFilterHandler inner2 c2
                                   (snd (NewSmartFilterHandler inner1 c1 st))))
                     (errorTracker (fst (NewSmartFilterHandler inner2 c2
                                           (snd (NewSmartFilterHandler inner1 c1 st))))) = ∅).
  { unfold tracker. simpl. by rewrite lookup_insert_eq. }
  split; [exact Hne|]. split; [exact Hempty|].
  assert (Hafter : tracker
            (snd (isDuplicateContextError (fst (NewSmartFilterHandler inner1 c1 st)) now msg
                    (snd (NewSmartFilterHandler inner2 c2
                            (snd (NewSmartFilterHandler inner1 c1 st))))))
            (errorTracker (fst (NewSmartFilterHandler inner2 c2
                                  (snd (NewSmartFilterHandler inner1 c1 st))))) = ∅).
  { rewrite dedup_other_map by (intros E; apply Hne; by rewrite E). exact Hempty. }
  split; [exact Hafter|].
  unfold isDuplicateContextError at 1.
  destruct (isContextError msg); [|reflexivity].
  unfold shouldFilterDuplicateError. rewrite Hafter.
  rewrite map_filter_empty, lookup_empty. reflexivity.
Qed.

(** The handler [WithAttrs] or [WithGroup] derives decides as the handler it
    derives from: the same records are rejected, on any store. *)
Theorem derived_rejects_the_same (h : SmartFilterHandler H) (inner : H) (st0 : Store)
    (now : Time) (r : Record_) (st : Store) :
  rejected (fst (derive h inner st0)) now r st = rejected h now r st
  /\ isDuplicateContextError (fst (derive h inner st0)) now (Message r) st
     = isDuplicateContextError h now (Message r) st.
Proof. split; reflexivity. Qed.

End Extra.

(** Duplicate detection across [filter0] and the handler derived from it, on
    the store the derivation leaves. *)
Lemma dedup_across_derived_witness :
  (exists st1 st2,
      isDuplicateContextError filter0 0 "connection reset by peer" storeDerived0
        = (false, st1)
      /\ isDuplicateContextError derived0 (0 + 1 * Minute) "connection reset by peer" st1
         = (true, st2))
  /\ (exists st1 st2,
      isDuplicateContextError derived0 0 "connection reset by peer" storeDerived0
        = (false, st1)
      /\ isDuplicateContextError filter0 (0 + 1 * Minute) "connection reset by peer" st1
         = (true, st2)).
Proof.
  apply (FilterClaims.dedup_across_derived filter0 derived0 "connection reset by peer" 0
           storeDerived0); vm_compute; reflexivity.
Defined.

Lemma stopped_early_changes_nothing_witness :
  SmartFilter.Handle_ filter0 0
    {| Time_ := 0; Message := "GET /health 200"; Level_ := LevelError; Attrs := [] |}
    (@nil Record_, store0)
  = ((@nil Record_, store0), None).
Proof.
  apply (stopped_early_changes_nothing filter0 0
           {| Time_ := 0; Message := "GET /health 200"; Level_ := LevelError; Attrs := [] |}
           (@nil Record_, store0)).
  vm_compute. reflexivity.
Defined.

Lemma one_emission_per_window_witness :
  let calls := [(1 * Minute, "user logged in")%Z; (2 * Minute, "broken pipe")%Z;
                (3 * Minute, "connection reset by peer")%Z;
                (4 * Minute, "broken pipe")%Z] in
  tracker (snd (runDedup filter0 calls storeAfterBrokenPipe)) (errorTracker filter0)
    !! "broken pipe" = Some 0%Z
  /\ forall i now, calls !! i = Some (now, "broken pipe") ->
       fst (runDedup filter0 calls storeAfterBrokenPipe) !! i = Some true.
Proof.
  cbv zeta.
  apply (one_emission_per_window filter0 "broken pipe" 0).
  - vm_compute. reflexivity.
  - vm_compute. reflexivity.
  - intros call Hin.
    repeat (apply elem_of_cons in Hin as [->|Hin]; [vm_compute; reflexivity|]).
    by apply not_elem_of_nil in Hin.
Defined.

End FilterExtra.

(** ** More on the fan-out handler *)

Module MultiExtra.
Import Slog Multi MultiProperties.

Section Extra.
Context {M S : Type} `{Handler M S}.

Lemma deliveries_none (handlers : list M) (r : Record_) (i : nat) :
  Multi.Enabled_ handlers (Level_ r) = false -> deliveries i handlers r = [].
Proof.
  unfold Multi.Enabled_. revert i.
  induction handlers as [|handler rest IH]; intros i Hoff; simpl in *; [reflexivity|].
  apply orb_false_elim in Hoff as [-> Hoff]. simpl. by apply IH.
Qed.

Lemma dispatch_none (report : error -> MState S -> option (MState S))
    (handlers : list M) (now : Time) (r : Record_) (i : nat) (st : MState S) :
  Multi.Enabled_ handlers (Level_ r) = false ->
  dispatch report i handlers now r st = Some st.
Proof.
  unfold Multi.Enabled_. revert i.
  induction handlers as [|handler rest IH]; intros i Hoff; simpl in *; [reflexivity|].
  apply orb_false_elim in Hoff as [-> Hoff]. by apply IH.
Qed.

(** When [Enabled] of the fan-out handler is false for the level of a
    record, [Handle] calls no member and returns nil, whatever the default
    logger is. *)
Theorem not_enabled_no_call (fuel : nat) (dflt : DefaultLogger M) (handlers : list M)
    (now : Time) (r : Record_) (st : MState S) :
  Multi.Enabled_ handlers (Level_ r) = false ->
  Multi.Handle_ (Datatypes.S fuel) dflt handlers now r st = Some (st, None).
Proof. intros Hoff. simpl. by rewrite dispatch_none. Qed.

Lemma WithAttrs_fold_length (attrs : list Attr) (handlers acc : list M) (s : S) :
  length (fst (fold_left (fun acc handler =>
                            let '(h', s') := WithAttrs handler attrs (snd acc) in
                            ((fst acc ++ [h'])%list, s'))
                         handlers (acc, s)))
  = (length acc + length handlers)%nat.
Proof.
  revert acc s. induction handlers as [|handler rest IH]; intros acc s; simpl.
  - lia.
  - destruct (WithAttrs handler attrs s) as [h' s']. simpl.
    rewrite IH, length_app. simpl. lia.
Qed.

Lemma WithGroup_fold_length (name : string) (handlers acc : list M) (s : S) :
  length (fst (fold_left (fun acc handler =>
                            let '(h', s') := WithGroup handler name (snd acc) in
                            ((fst acc ++ [h'])%list, s'))
                         handlers (acc, s)))
  = (length acc + length handlers)%nat.
Proof.
  revert acc s. induction handlers as [|handler rest IH]; intros acc s; simpl.
  - lia.
  - destruct (WithGroup handler name s) as [h' s']. simpl.
    rewrite IH, length_app. simpl. lia.
Qed.

(** [WithAttrs] and [WithGroup] give a fan-out handler over as many members
    as before: binding does not collapse the fan-out. *)
Theorem binding_keeps_fanout (handlers : list M) (attrs : list Attr) (name : string)
    (s : S) :
  length (fst (Multi.WithAttrs_ handlers attrs s)) = length handlers
  /\ length (fst (Multi.WithGroup_ handlers name s)) = length handlers.
Proof.
  unfold Multi.WithAttrs_, Multi.WithGroup_.
  by rewrite WithAttrs_fold_length, WithGroup_fold_length.
Qed.

End Extra.

(** The claim's sinks under Go's initial default logger. *)
Lemma Handle_returns_nil_witness :
  exists st',
    Multi.Handle_ 1 Initial sinksFailingFirst 0 (userLoggedIn 0) noCalls = Some (st', None)
    /\ calls st'
       = (calls noCalls ++ deliveries 0 sinksFailingFirst (userLoggedIn 0))%list.
Proof.
  apply (Handle_returns_nil (M := Probe.Probe) Initial sinksFailingFirst 0 0
           (userLoggedIn 0) noCalls).
  exact I.
Defined.

(** The sinks of the default configuration with the default logger
    [InitWithDefaults] installs. *)
Lemma Handle_never_returns_witness :
  Multi.Handle_ 1000 (Installed (Fanout sinks)) sinks 0 (userLoggedIn 0) noCalls = None.
Proof.
  apply (Handle_never_returns (M := Probe.Probe) sinks 0).
  - exists [console], failingFile, []. repeat split.
    + intros level Hl. apply Z.leb_le. exact Hl.
    + intros t r s. eexists _, _. reflexivity.
    + intros m t r s Hm. apply list_elem_of_singleton in Hm as ->. reflexivity.
  - vm_compute. discriminate.
Defined.

Lemma not_enabled_no_call_witness :
  Multi.Handle_ 1 (Installed (Fanout sinks)) sinks 0
    {| Time_ := 0; Message := "cache miss"; Level_ := LevelDebug; Attrs := [] |} noCalls
  = Some (noCalls, None).
Proof.
  apply (not_enabled_no_call (M := Probe.Probe) 0 (Installed (Fanout sinks)) sinks 0
           {| Time_ := 0; Message := "cache miss"; Level_ := LevelDebug; Attrs := [] |}
           noCalls).
  reflexivity.
Defined.

End MultiExtra.

Module MultiExtraStatements.
Import Slog Multi MultiProperties.

Section Statements.
Context {M S : Type} `{Handler M S}.


(** With the logger over the fan-out handler as the default logger, and a
    member, enabled from [info] on, that fails on every record while the
    members before it succeed: [MultiHandler.Handle] on a record of level
    [info] or above does not return, whatever the depth allowed. *)
Theorem fanout_reentrant_never_returns (before after : list M) (bad : M) (now : Time)
    (fuel : nat) (r : Record_) (st : MState S) :
  (forall level, (LevelInfo <= level)%Z -> Enabled bad level = true) ->
  (forall t r' s, exists s' e, Handle bad t r' s = (s', Some e)) ->
  (forall m t r' s, m ∈ before -> snd (Handle m t r' s) = None) ->
  (LevelInfo <= Level_ r)%Z ->
  Multi.Handle_ fuel (Installed (Fanout (before ++ bad :: after)%list))
    (before ++ bad :: after)%list now r st = None.
Proof.
  intros Hen Hfail Hok Hlvl. apply Handle_never_returns; [|exact Hlvl].
  by exists before, bad, after.
Qed.

End Statements.


Lemma fanout_reentrant_never_returns_witness :
  Multi.Handle_ 1000 (Installed (Fanout ([console] ++ failingFile :: [])%list))
    ([console] ++ failingFile :: [])%list 0 (userLoggedIn 0) noCalls = None.
Proof.
  apply (fanout_reentrant_never_returns (M := Probe.Probe) [console] [] failingFile 0 1000
           (userLoggedIn 0) noCalls).
  - intros level Hl. apply Z.leb_le. exact Hl.
  - intros t r s. eexists _, _. reflexivity.
  - intros m t r s Hm. apply list_elem_of_singleton in Hm as ->. reflexivity.
  - vm_compute. discriminate.
Defined.

End MultiExtraStatements.

(** ** More on the request middleware *)

Module MiddlewareExtra.
Import Strings Slog Middleware MiddlewareProperties StringFacts.

(** A higher status never gives a lower level. *)
Theorem getLogLevelForStatus_monotone (s1 s2 : Z) :
  (s1 <= s2)%Z -> (getLogLevelForStatus s1 <= getLogLevelForStatus s2)%Z.
Proof.
  intros Hle. unfold getLogLevelForStatus, LevelError, LevelWarn, LevelInfo.
  destruct (500 <=? s1)%Z eqn:A1, (500 <=? s2)%Z eqn:A2,
           (400 <=? s1)%Z eqn:B1, (400 <=? s2)%Z eqn:B2,
           (300 <=? s1)%Z eqn:C1, (300 <=? s2)%Z eqn:C2; lia.
Qed.

Lemma getLogLevelForStatus_monotone_witness :
  (getLogLevelForStatus 404 <= getLogLevelForStatus 503)%Z.
Proof. apply getLogLevelForStatus_monotone. lia. Defined.

Section Extra.
Context {strs : StringsPkg}.
Variable formatJSONBody : string -> string.
Variable sprintMap : list (string * string) -> string.
Variable durationString : Duration -> string.

(** Headers and request body stay out of the log for a request that did not
    fail while debug logging is off: the call has no attribute [headers] and
    no attribute [request_body], whatever the configuration asks for. *)
Theorem success_logs_no_headers_no_body (cfg : GinMiddlewareConfig) (req : Request)
    (out : Outcome) (calls : list LogCall) (call : LogCall) :
  (Status out < 400)%Z ->
  DebugEnabled out = false ->
  GinMiddlewareWithConfig formatJSONBody sprintMap durationString cfg req out
    = Some calls ->
  call ∈ calls ->
  ("headers" ∉ map fst (call_attrs call))
  /\ ("request_body" ∉ map fst (call_attrs call)).
Proof.
  intros Hok Hdebug. unfold GinMiddlewareWithConfig.
  destruct (skipped cfg (Path req));
    [intros [= <-] Hin; by apply not_elem_of_nil in Hin|].
  cbv zeta.
  assert (Hgate : ((400 <=? Status out)%Z || DebugEnabled out) = false).
  { rewrite Hdebug, orb_false_r. apply Z.leb_gt. exact Hok. }
  rewrite Hgate, !andb_false_r.
  intros [= <-] Hin. apply list_elem_of_singleton in Hin as ->.
  cbn [call_attrs].
  destruct (negb (String.eqb (RequestID req) EmptyString)),
           (0 <? length (Errors out))%nat,
           (CacheStatus out),
           (negb (String.eqb (RawQuery req) EmptyString));
    cbn [app map fst]; split; intros Hin;
    repeat (apply elem_of_cons in Hin as [Hin|Hin]; [discriminate Hin|]);
    by apply not_elem_of_nil in Hin.
Qed.

(** A request whose method is not [POST], [PUT] or [PATCH] has its body left
    alone: the logged request size is 0 and there is no attribute
    [request_body]. *)
Theorem bodyless_methods_log_no_body (cfg : GinMiddlewareConfig) (req : Request)
    (out : Outcome) (calls : list LogCall) (call : LogCall) :
  shouldLogRequestBody (Method req) (ContentType req) = false ->
  GinMiddlewareWithConfig formatJSONBody sprintMap durationString cfg req out
    = Some calls ->
  call ∈ calls ->
  ("request_size", Int64Value 0) ∈ call_attrs call
  /\ ("request_body" ∉ map fst (call_attrs call)).
Proof.
  intros Hno. unfold GinMiddlewareWithConfig.
  destruct (skipped cfg (Path req));
    [intros [= <-] Hin; by apply not_elem_of_nil in Hin|].
  cbv zeta.
  rewrite Hno, andb_false_r.
  change (0 <? String.length EmptyString)%nat with false.
  rewrite andb_false_r. cbn [andb]. change (len EmptyString) with 0%Z.
  intros Hrun Hin. apply (inj Some) in Hrun. subst calls.
  apply list_elem_of_singleton in Hin as ->.
  cbn [call_attrs].
  split.
  - do 2 apply elem_of_grow.
    destruct (LogHeaders cfg && _); [apply elem_of_grow|];
    (destruct (CacheStatus out); [apply elem_of_app; left|]);
    apply elem_of_grow;
    do 7 (apply elem_of_cons; right); apply elem_of_cons; by left.
  - destruct (negb (String.eqb (RequestID req) EmptyString)),
             (0 <? length (Errors out))%nat,
             (LogHeaders cfg && ((400 <=? Status out)%Z || DebugEnabled out)),
             (CacheStatus out),
             (negb (String.eqb (RawQuery req) EmptyString));
      try destruct (0 <? length _)%nat;
      cbn [app map fst]; intros Hin;
      repeat (apply elem_of_cons in Hin as [Hin|Hin]; [discriminate Hin|]);
      by apply not_elem_of_nil in Hin.
Qed.

(** A body that does not look like JSON is logged as it is when it is at
    most [maxSize] bytes long, and cut to its first [maxSize] bytes followed
    by the truncation mark otherwise; either way at most [maxSize + 14]
    bytes. *)
Theorem prepareBodyForLogging_plain (bodyBytes : string) (maxSize : Z) :
  (0 <= maxSize)%Z ->
  let cut := if (maxSize <? len bodyBytes)%Z
             then take (Z.to_nat maxSize) bodyBytes ++ "...(truncated)"
             else bodyBytes in
  HasPrefix (TrimSpace cut) "{" || HasPrefix (TrimSpace cut) "[" = false ->
  prepareBodyForLogging formatJSONBody bodyBytes maxSize = Some cut
  /\ (len cut <= maxSize + 14)%Z.
Proof.
  intros Hpos cut Hplain. subst cut. unfold prepareBodyForLogging, len in *.
  destruct (maxSize <? 0)%Z eqn:En; [apply Z.ltb_lt in En; lia|].
  destruct (String.length bodyBytes =? 0)%nat eqn:E0.
  - apply Nat.eqb_eq in E0.
    destruct bodyBytes; [|discriminate]. clear Hplain.
    cbn [String.length]. change (Z.of_nat 0) with 0%Z. rewrite En.
    split; [reflexivity|]. cbn [String.length]. lia.
  - destruct (maxSize <? Z.of_nat (String.length bodyBytes))%Z eqn:E.
    + rewrite Hplain. split; [reflexivity|].
      apply Z.ltb_lt in E. rewrite length_app, length_take.
      change (String.length "...(truncated)") with 14%nat. lia.
    + rewrite Hplain. split; [reflexivity|]. apply Z.ltb_ge in E. lia.
Qed.

(** When headers are logged (the configuration asks for them and the request
    failed), the attribute [headers] holds one entry per request header, and
    the entry of a sensitive header holds [[FILTERED]] in place of the
    values. *)
Theorem logged_headers_are_redacted (cfg : GinMiddlewareConfig) (req : Request)
    (out : Outcome) (calls : list LogCall) (call : LogCall) :
  LogHeaders cfg = true ->
  (400 <= Status out)%Z ->
  Header req ≠ [] ->
  GinMiddlewareWithConfig formatJSONBody sprintMap durationString cfg req out
    = Some calls ->
  call ∈ calls ->
  exists headers,
    ("headers", OtherValue (sprintMap headers)) ∈ call_attrs call
    /\ map fst headers = map fst (Header req)
    /\ forall name value, (name, value) ∈ headers ->
         isSensitiveHeader name = true -> value = "[FILTERED]".
Proof.
  intros Hlog Hfail Hsome. unfold GinMiddlewareWithConfig.
  destruct (skipped cfg (Path req));
    [intros [= <-] Hin; by apply not_elem_of_nil in Hin|].
  cbv zeta.
  set (redact := fun nv : string * list string =>
                   if isSensitiveHeader (fst nv) then (fst nv, "[FILTERED]")
                   else (fst nv, Join (snd nv) ", ")).
  assert (Hgate : (LogHeaders cfg && ((400 <=? Status out)%Z || DebugEnabled out)) = true).
  { rewrite Hlog. simpl. apply orb_true_iff. left. by apply Z.leb_le. }
  rewrite Hgate.
  assert (Hlen : (0 <? length (map redact (Header req)))%nat = true).
  { rewrite length_map. apply Nat.ltb_lt. destruct (Header req); [done|simpl; lia]. }
  rewrite Hlen.
  match goal with |- context [(?l ++ [("headers", ?v)])%list] =>
    set (attrs := (l ++ [("headers", v)])%list) end.
  assert (Hattrs : ("headers", OtherValue (sprintMap (map redact (Header req)))) ∈ attrs).
  { subst attrs. apply elem_of_app. right. by apply list_elem_of_singleton. }
  clearbody attrs.
  intros Hrun Hin. exists (map redact (Header req)). split; [|split].
  - destruct (LogBody cfg && _ && _) in Hrun.
    + destruct (prepareBodyForLogging _ _ _) in Hrun; [|discriminate].
      injection Hrun as <-. apply list_elem_of_singleton in Hin as ->.
      cbn [call_attrs]. do 2 apply elem_of_grow. apply elem_of_app. by left.
    + injection Hrun as <-. apply list_elem_of_singleton in Hin as ->.
      cbn [call_attrs]. by do 2 apply elem_of_grow.
  - rewrite map_map. apply map_ext. intros [n vs]. unfold redact. simpl.
    by destruct (isSensitiveHeader n).
  - intros name value Hin' Hsens.
    apply list_elem_of_In, in_map_iff in Hin' as ([n vs] & Heq & _).
    unfold redact in Heq. simpl in Heq.
    destruct (isSensitiveHeader n) eqn:E; injection Heq as <- <-; [reflexivity|].
    congruence.
Qed.

End Extra.

Lemma success_logs_no_headers_no_body_witness :
  exists call,
    GinMiddlewareWithConfig (strs := ascii_strings) sameText showMap showDuration
      logEverything createUser (outcome 201) = Some [call]
    /\ ("headers" ∉ map fst (call_attrs call))
    /\ ("request_body" ∉ map fst (call_attrs call)).
Proof.
  eexists. split; [vm_compute; reflexivity|].
  eapply (success_logs_no_headers_no_body (strs := ascii_strings) sameText showMap
            showDuration logEverything createUser (outcome 201)).
  - vm_compute. reflexivity.
  - reflexivity.
  - vm_compute. reflexivity.
  - apply elem_of_cons. by left.
Defined.

Lemma bodyless_methods_log_no_body_witness :
  exists call,
    GinMiddlewareWithConfig (strs := ascii_strings) sameText showMap showDuration
      logEverything withCredentials (outcome 404) = Some [call]
    /\ ("request_size", Int64Value 0) ∈ call_attrs call
    /\ ("request_body" ∉ map fst (call_attrs call)).
Proof.
  eexists. split; [vm_compute; reflexivity|].
  eapply (bodyless_methods_log_no_body (strs := ascii_strings) sameText showMap
            showDuration logEverything withCredentials (outcome 404)).
  - reflexivity.
  - vm_compute. reflexivity.
  - apply elem_of_cons. by left.
Defined.

Lemma prepareBodyForLogging_plain_witness :
  prepareBodyForLogging (strs := ascii_strings) sameText "name=alice&password=secret" 16
    = Some "name=alice&passw...(truncated)"
  /\ (len "name=alice&passw...(truncated)" <= 16 + 14)%Z.
Proof.
  apply (prepareBodyForLogging_plain (strs := ascii_strings) sameText
           "name=alice&password=secret" 16).
  - lia.
  - vm_compute. reflexivity.
Defined.

Lemma logged_headers_are_redacted_witness :
  exists call headers,
    GinMiddlewareWithConfig (strs := ascii_strings) sameText showMap showDuration
      logEverything withCredentials (outcome 404) = Some [call]
    /\ ("headers", OtherValue (showMap headers)) ∈ call_attrs call
    /\ map fst headers = map fst (Header withCredentials)
    /\ forall name value, (name, value) ∈ headers ->
         isSensitiveHeader (strs := ascii_strings) name = true -> value = "[FILTERED]".
Proof.
  eexists.
  assert (Hcall : GinMiddlewareWithConfig (strs := ascii_strings) sameText showMap
                    showDuration logEverything withCredentials (outcome 404) = Some [_])
    by (vm_compute; reflexivity).
  destruct (logged_headers_are_redacted (strs := ascii_strings) sameText showMap
              showDuration logEverything withCredentials (outcome 404) _ _
              eq_refl ltac:(vm_compute; discriminate) ltac:(discriminate)
              Hcall ltac:(apply elem_of_cons; by left))
    as (headers & Hin & Hkeys & Hred).
  exists headers. split; [exact Hcall|]. split; [exact Hin|]. split; assumption.
Defined.

End MiddlewareExtra.

(** ** More on the console handler and on highlighting *)

Module RegexpFacts.
Import Strings Regexp RegexpReplace StringFacts.

(** [rest] is what is left of [s] after some first part. *)
Definition leftOf (s rest : string) : Prop := exists m, s = m ++ rest.

Lemma leftOf_refl (s : string) : leftOf s s.
Proof. by exists EmptyString. Qed.

Lemma leftOf_cons (a : ascii) (s rest : string) : leftOf s rest -> leftOf (String a s) rest.
Proof. intros [m ->]. by exists (String a m). Qed.

(** A match consumes a first part of the text: when the continuation returns
    a rest of its input, so does the matcher. *)
Lemma matchK_leftOf (r : regex) :
  forall (prev : option ascii) (s : string)
         (k : option ascii -> string -> option string) (rest : string),
    (forall p s' rest', k p s' = Some rest' -> leftOf s' rest') ->
    matchK r prev s k = Some rest -> leftOf s rest.
Proof.
  induction r as [|p|r1 IH1 r2 IH2|r1 IH1 r2 IH2|r IH| |]; intros prev s k rest Hk; simpl.
  - apply Hk.
  - destruct s as [|a s]; [discriminate|].
    destruct (p a); [|discriminate]. intros E. apply leftOf_cons. by apply Hk in E.
  - apply IH1. intros p s' rest'. by apply IH2.
  - destruct (matchK r1 prev s k) as [x|] eqn:E1.
    + intros [= <-]. by apply (IH1 prev s k).
    + by apply IH2.
  - generalize (String.length s) at 1. intros fuel. revert prev s rest.
    induction fuel as [|fuel IHf]; intros prev s rest.
    + apply Hk.
    + destruct (matchK r prev s _) as [x|] eqn:E.
      * intros [= <-]. apply (IH _ _ _ _) in E; [exact E|].
        intros p s' rest'. simpl.
        destruct (String.length s' <? String.length s)%nat; [apply IHf|discriminate].
      * apply Hk.
  - destruct (xorb _ _); [apply Hk|discriminate].
  - destruct prev; [discriminate|apply Hk].
Qed.

Lemma matchHere_parts (r : regex) (prev : option ascii) (s rest : string) :
  matchHere r prev s = Some rest ->
  s = take (String.length s - String.length rest) s ++ rest.
Proof.
  intros E.
  apply (matchK_leftOf r prev s (fun _ rest => Some rest)) in E;
    [|intros p s' rest' [= <-]; apply leftOf_refl].
  destruct E as [m0 ->].
  by rewrite length_app, Nat.add_sub, take_app_exact.
Qed.

(** The three parts [findFrom] returns make up the text. *)
Lemma findFrom_parts (r : regex) (s : string) :
  forall (prev : option ascii) (pre m post : string),
    findFrom r prev s = Some (pre, m, post) -> s = pre ++ m ++ post.
Proof.
  induction s as [|a s IH]; intros prev pre m post; simpl.
  - destruct (matchHere r prev EmptyString) as [rest|] eqn:E; [|discriminate].
    intros [= <- <- <-]. exact (matchHere_parts _ _ _ _ E).
  - destruct (matchHere r prev (String a s)) as [rest|] eqn:E.
    + intros [= <- <- <-]. exact (matchHere_parts _ _ _ _ E).
    + destruct (findFrom r (Some a) s) as [[[pre' m'] post']|] eqn:E'; [|discriminate].
      intros [= <- <- <-]. rewrite app_cons. f_equal. by apply IH in E'.
Qed.

(** Replacing every match by itself gives the text back. *)
Lemma replaceLoop_same (r : regex) (repl : string -> string) :
  (forall m, repl m = m) ->
  forall (fuel : nat) (afterMatch : bool) (prev : option ascii) (s : string),
    replaceLoop fuel r repl afterMatch prev s = s.
Proof.
  intros Hrepl. induction fuel as [|fuel IH]; intros afterMatch prev s; simpl;
    [reflexivity|].
  destruct (findFrom r prev s) as [[[pre m] post]|] eqn:E; [|reflexivity].
  apply findFrom_parts in E. subst s.
  destruct m as [|b m].
  - assert (Hhere : (match pre with
                     | EmptyString => if afterMatch then EmptyString else repl EmptyString
                     | String _ _ => repl EmptyString
                     end) = EmptyString).
    { destruct pre; [destruct afterMatch|]; by rewrite ?Hrepl. }
    rewrite Hhere. destruct post as [|a post]; [reflexivity|].
    by rewrite IH.
  - by rewrite Hrepl, IH.
Qed.

Lemma ReplaceAllStringFunc_same (r : regex) (src : string) (repl : string -> string) :
  (forall m, repl m = m) -> ReplaceAllStringFunc r src repl = src.
Proof. intros Hrepl. unfold ReplaceAllStringFunc. by apply replaceLoop_same. Qed.

End RegexpFacts.

Module ColorExtra.
Import Strings Slog Color Highlight ColorHandler RegexpFacts StringFacts.

(** With colours off ([color.NoColor], where [Sprint] returns its text),
    [colorize] gives every message back as it is, with highlighting on as
    with highlighting off, in whatever order the keywords are tried. *)
Theorem colorize_without_colors (order : list (string * Attribute)) (msg : string)
    (enableHighlight : bool) :
  colorize (painter := plain) order msg enableHighlight = msg.
Proof.
  unfold colorize. destruct enableHighlight; [|reflexivity]. cbn [negb]. cbv zeta.
  assert (Hkw : forall m, fold_left (highlightKeyword (painter := plain)) order m = m).
  { induction order as [|kc order IH]; intros m; simpl; [reflexivity|].
    unfold highlightKeyword at 2. rewrite ReplaceAllStringFunc_same by reflexivity.
    apply IH. }
  rewrite Hkw. by rewrite !ReplaceAllStringFunc_same.
Qed.

Lemma SplitByte_parts_clean (c : ascii) (s : string) :
  forall part, part ∈ SplitByte c s -> hasByte c part = false.
Proof.
  induction s as [|a s IH]; simpl; intros part Hin.
  - apply list_elem_of_singleton in Hin as ->. reflexivity.
  - destruct (Ascii.eqb a c) eqn:E.
    + apply elem_of_cons in Hin as [->|Hin]; [reflexivity|by apply IH].
    + destruct (SplitByte c s) as [|x xs] eqn:Es.
      * apply list_elem_of_singleton in Hin as ->. simpl. by rewrite E.
      * apply elem_of_cons in Hin as [->|Hin].
        -- simpl. rewrite E. apply IH. by left.
        -- apply IH. by right.
Qed.

Lemma SplitByte_not_nil (c : ascii) (s : string) : SplitByte c s ≠ [].
Proof.
  induction s as [|a s IH]; simpl; [done|].
  destruct (Ascii.eqb a c); [done|]. by destruct (SplitByte c s).
Qed.

(** [splitLines] returns at least one line, and no line holds a line
    feed. *)
Theorem splitLines_lines (s : string) :
  splitLines s ≠ []
  /\ forall line, line ∈ splitLines s -> hasByte (ascii_of_nat 10) line = false.
Proof.
  unfold splitLines. split; [apply SplitByte_not_nil|apply SplitByte_parts_clean].
Qed.

Lemma fields_update (st : State) (a l : loc) (f : Fields) (out : gmap nat string) :
  fields {| objs := <[a := f]> (objs st); output := out |} l
  = if decide (a = l) then f else fields st l.
Proof.
  unfold fields. cbn [objs]. rewrite lookup_insert. by destruct (decide (a = l)).
Qed.

Section Extra.
Context {painter : Painter}.
Variable formatTime : string -> Time -> string.
Variable rangeOrder : list (string * Attribute).

(** [ColorHandler.Handle] returns nil; it adds text at the end of what its
    writer holds and leaves the other writers alone; it sets [lastLogTime] to
    the instant of the call and changes no other field, of this handler or of
    another. *)
Theorem Handle_appends_to_its_writer (h : ColorHandler) (now : Time) (r : Record_)
    (st : State) :
  let st' := fst (ColorHandler.Handle_ formatTime rangeOrder h now r st) in
  snd (ColorHandler.Handle_ formatTime rangeOrder h now r st) = None
  /\ (exists text, written st' (w h) = written st (w h) ++ text)
  /\ (forall wr, wr ≠ w h -> written st' wr = written st wr)
  /\ lastLogTime (fields st' (addr h)) = Some now
  /\ enableHighlight (fields st' (addr h)) = enableHighlight (fields st (addr h))
  /\ compactMode (fields st' (addr h)) = compactMode (fields st (addr h))
  /\ (forall l, l ≠ addr h -> fields st' l = fields st l).
Proof.
  cbv zeta. unfold ColorHandler.Handle_. cbn [fst snd].
  split; [reflexivity|]. split.
  - eexists. unfold written at 1. cbn [output]. rewrite lookup_insert_eq. reflexivity.
  - split.
    + intros wr Hne. unfold written. cbn [output]. by rewrite lookup_insert_ne.
    + rewrite !fields_update, !decide_True by reflexivity.
      split; [reflexivity|]. split; [reflexivity|]. split; [reflexivity|].
      intros l Hne. rewrite fields_update. by rewrite decide_False.
Qed.

End Extra.

End ColorExtra.

(** ** Printing and reading back a status *)

Module StatusExtra.
Import Strings Slog Color Highlight ColorHandler StringFacts.

Lemma pretty_N_char_digit (x : N) :
  (x < 10)%N ->
  Regexp.isDigit (pretty_N_char x) = true
  /\ Z.of_nat (nat_of_ascii (pretty_N_char x) - 48) = Z.of_N x.
Proof.
  intros Hx.
  assert (x = 0 \/ x = 1 \/ x = 2 \/ x = 3 \/ x = 4 \/ x = 5 \/ x = 6 \/ x = 7
          \/ x = 8 \/ x = 9)%N as Hc by lia.
  repeat (destruct Hc as [->|Hc]; [split; reflexivity|]). subst. split; reflexivity.
Qed.

(** The digits [pretty_N_go] puts in front of [s], read with an accumulator:
    the accumulator is shifted and the number added. *)
Lemma digitsValue_pretty_N_go (x : N) :
  forall (s : string) (acc : Z),
    exists n : nat,
      digitsValue acc (pretty_N_go x s) = digitsValue (acc * 10 ^ Z.of_nat n + Z.of_N x) s
      /\ (x = 0%N -> n = O).
Proof.
  induction (N.lt_wf_0 x) as [x _ IH]. intros s acc.
  destruct (decide (x = 0)%N) as [->|Hx].
  - exists O. rewrite pretty_N_go_0. split; [|done]. f_equal. simpl. lia.
  - rewrite pretty_N_go_step by lia.
    destruct (IH (x `div` 10)%N ltac:(apply N.div_lt; lia)
                (String (pretty_N_char (x `mod` 10)) s) acc) as (n & E & _).
    exists (Datatypes.S n). split; [|done]. rewrite E. simpl digitsValue.
    destruct (pretty_N_char_digit (x `mod` 10)%N ltac:(apply N.mod_lt; lia)) as [-> ->].
    f_equal.
    rewrite Nat2Z.inj_succ, Z.pow_succ_r by lia.
    pose proof (N.div_mod x 10 ltac:(lia)) as Hdm.
    assert (Z.of_N x = 10 * Z.of_N (x `div` 10) + Z.of_N (x `mod` 10))%Z by lia.
    lia.
Qed.

Lemma digitsValue_pretty_N (x : N) : digitsValue 0 (pretty x) = Some (Z.of_N x).
Proof.
  unfold pretty, pretty_N. destruct (decide (x = 0%N)) as [->|Hx]; [reflexivity|].
  destruct (digitsValue_pretty_N_go x EmptyString 0) as (n & E & _).
  rewrite E. simpl. f_equal.
Qed.

Lemma pretty_N_go_head (x : N) (s : string) :
  (0 < x)%N ->
  exists a t, pretty_N_go x s = String a t /\ Regexp.isDigit a = true.
Proof.
  revert s. induction (N.lt_wf_0 x) as [x _ IH]. intros s Hx.
  rewrite pretty_N_go_step by done.
  destruct (decide (x `div` 10 = 0)%N) as [E0|Hne].
  - rewrite E0, pretty_N_go_0. eexists _, _. split; [reflexivity|].
    apply pretty_N_char_digit. apply N.mod_lt. lia.
  - apply IH; [apply N.div_lt; lia|by apply N.neq_0_lt_0].
Qed.

Lemma digit_not_sign (a : ascii) :
  Regexp.isDigit a = true -> a ≠ "-"%char /\ a ≠ "+"%char.
Proof. intros Hd. split; intros ->; discriminate Hd. Qed.

Lemma Atoi_digits (s : string) (a : ascii) (t : string) (z : Z) :
  s = String a t -> Regexp.isDigit a = true ->
  digitsValue 0 s = Some z ->
  (minDuration <= z <= maxDuration)%Z ->
  Atoi s = Some z.
Proof.
  intros -> Hd Hv Hrange. destruct (digit_not_sign a Hd) as [Hm Hp].
  unfold Atoi.
  assert (Hbody : (match String a t with
                   | String "-"%char t0 =>
                       option_map Z.opp
                         (match t0 with EmptyString => None | _ => digitsValue 0 t0 end)
                   | String "+"%char t0 =>
                       match t0 with EmptyString => None | _ => digitsValue 0 t0 end
                   | _ => match String a t with
                          | EmptyString => None
                          | _ => digitsValue 0 (String a t)
                          end
                   end) = Some z).
  { destruct a as [[] [] [] [] [] [] [] []]; try exact Hv; congruence. }
  rewrite Hbody.
  destruct (minDuration <=? z)%Z eqn:E1, (z <=? maxDuration)%Z eqn:E2; try reflexivity;
    [apply Z.leb_gt in E2|apply Z.leb_gt in E1|apply Z.leb_gt in E1]; lia.
Qed.

(** [strconv.Atoi] reads back what was printed for an integer that fits
    [int]. *)
Theorem Atoi_pretty (z : Z) :
  (minDuration <= z <= maxDuration)%Z -> Atoi (pretty z) = Some z.
Proof.
  intros Hrange. destruct z as [|p|p].
  - reflexivity.
  - change (pretty (Z.pos p)) with (pretty (N.pos p)).
    assert (Hne : pretty (N.pos p) = pretty_N_go (N.pos p) EmptyString).
    { unfold pretty, pretty_N. by destruct (decide (N.pos p = 0%N)). }
    destruct (pretty_N_go_head (N.pos p) EmptyString ltac:(lia)) as (a & t & E & Hd).
    apply (Atoi_digits _ a t); [by rewrite Hne|exact Hd| |exact Hrange].
    by rewrite digitsValue_pretty_N.
  - change (pretty (Z.neg p)) with ("-" ++ pretty (N.pos p)).
    assert (Hne : pretty (N.pos p) = pretty_N_go (N.pos p) EmptyString).
    { unfold pretty, pretty_N. by destruct (decide (N.pos p = 0%N)). }
    destruct (pretty_N_go_head (N.pos p) EmptyString ltac:(lia)) as (a & t & E & Hd).
    unfold Atoi. change ("-" ++ pretty (N.pos p)) with (String "-" (pretty (N.pos p))).
    cbv iota beta.
    assert (Hv : digitsValue 0 (pretty (N.pos p)) = Some (Z.pos p))
      by (rewrite digitsValue_pretty_N; reflexivity).
    rewrite Hne in *. rewrite E in *. rewrite Hv. simpl option_map.
    change (- Z.pos p)%Z with (Z.neg p). cbv iota beta.
    rewrite (proj2 (Z.leb_le minDuration (Z.neg p))) by lia.
    rewrite (proj2 (Z.leb_le (Z.neg p) maxDuration)) by lia.
    reflexivity.
Qed.

(** The colours of a status on the console follow the severity the
    middleware logs it with.  For an integer status the handler writes the key
    in cyan and the number in bold red when the middleware's level is
    [error], in bold yellow when it is [warn], in bold green from 200 on
    below that, and in plain white under 200. *)
Theorem status_colour_follows_severity {painter : Painter}
    (rangeOrder : list (string * Attribute)) (highlight : bool) (status : Z)
    (indent : nat) :
  (minDuration <= status <= maxDuration)%Z ->
  handleAttr rangeOrder highlight "status" (Int64Value status) indent
  = Sprint [FgCyan] (Repeat "    " indent ++ "status" ++ ": ")
    ++ Sprint (if (Middleware.getLogLevelForStatus status =? LevelError)%Z
               then [FgRed; Bold]
               else if (Middleware.getLogLevelForStatus status =? LevelWarn)%Z
                    then [FgYellow; Bold]
                    else if (200 <=? status)%Z then [FgGreen; Bold] else [FgWhite])
             (pretty status ++ newline).
Proof.
  intros Hrange. unfold handleAttr.
  change (Value_String (Int64Value status)) with (pretty status).
  change (String.eqb "status" "error") with false.
  change (String.eqb "status" "stack") with false.
  change (String.eqb "status" "trace") with false.
  change (String.eqb "status" "method") with false.
  change (String.eqb "status" "status") with true.
  cbn [orb]. cbv iota.
  rewrite Atoi_pretty by exact Hrange.
  unfold Middleware.getLogLevelForStatus.
  destruct (500 <=? status)%Z eqn:E5; [reflexivity|].
  destruct (400 <=? status)%Z eqn:E4; [reflexivity|].
  destruct (300 <=? status)%Z eqn:E3; change (LevelInfo =? LevelError)%Z with false;
    change (LevelInfo =? LevelWarn)%Z with false; cbv iota;
    destruct (200 <=? status)%Z; reflexivity.
Qed.

Lemma status_colour_follows_severity_witness :
  handleAttr (painter := sgr) keywordColors true "status" (Int64Value 404) 1
  = Sprint (Painter := sgr) [FgCyan] (Repeat "    " 1 ++ "status" ++ ": ")
    ++ Sprint (Painter := sgr)
         (if (Middleware.getLogLevelForStatus 404 =? LevelError)%Z
          then [FgRed; Bold]
          else if (Middleware.getLogLevelForStatus 404 =? LevelWarn)%Z
               then [FgYellow; Bold]
               else if (200 <=? 404)%Z then [FgGreen; Bold] else [FgWhite])
         (pretty 404%Z ++ newline).
Proof.
  apply (status_colour_follows_severity (painter := sgr) keywordColors true 404 1).
  vm_compute. split; discriminate.
Defined.

End StatusExtra.

(** ** The chain [createLogger] builds *)

Module LoggerExtra.
Import Slog Logger.

Section Extra.
Variable Dir : string -> string.
Variable MkdirAll : string -> option error.


End Extra.

(** The default configuration: the filtered colour handler on standard
    error and the JSON handler on the rotating file, behind a fan-out
    handler. *)
Example createLogger_defaults :
  createLogger (fun _ => "logs") (fun _ => None) Config.defaults
  = inl (Multi.Fanout
           [ SmartFilterOver (ColorOn Stderr LevelInfo true false)
               {| SmartFilter.IgnoreGinDebug := true;
                  SmartFilter.IgnoreHealthCheck := true;
                  SmartFilter.MinLevel := LevelInfo |};
             JSONOn (RotatingFile "logs/app.log" 10 5 30 true) LevelInfo ]).
Proof. reflexivity. Qed.

End LoggerExtra.

Module UtilsExtraWitness.
Import Strings Utils UtilsExtra.

Lemma skipped_paths_are_health_paths_witness :
  IsHealthCheckPath (strs := ascii_strings) "/metrics/prometheus" = true.
Proof. apply (skipped_paths_are_health_paths "/metrics/prometheus"). reflexivity. Defined.

End UtilsExtraWitness.
